(** * Pixel-based affectation analysis: a shallow embedding

    The development follows [services/advanced_analysis.py]
    (class [AnalizadorAfeccionesAmbientales]) and the stand-alone script
    [15.py].  Python names are kept.  Geographic coordinates and
    percentages are Python floats in the source; they are embedded as exact
    rationals ([Q]), so binary rounding is not part of the model.  NumPy
    arrays are kept with their shape and their row-major buffer. *)

From Stdlib Require Import ZArith QArith Bool Lia Lqa.
From stdpp Require Import base option list strings gmap.

Local Open Scope Z_scope.

(** ** NumPy arrays *)

(** An array of shape [(filas, columnas)] over cells of type [A]; [datos]
    is the buffer in row-major order.  A pixel array of shape [(H, W, 3)]
    is an [ndarray pixel]. *)
Record ndarray (A : Type) := Ndarray {
  filas : nat;
  columnas : nat;
  datos : list A
}.
Arguments Ndarray {A} _ _ _.
Arguments filas {A} _.
Arguments columnas {A} _.
Arguments datos {A} _.

Definition shape {A} (a : ndarray A) : nat * nat := (filas a, columnas a).

Definition shape_eqb (s t : nat * nat) : bool :=
  Nat.eqb (fst s) (fst t) && Nat.eqb (snd s) (snd t).

(** One RGB cell: three [uint8] channels, kept as integers in [0, 255]. *)
Definition pixel : Type := Z * Z * Z.

(** [np.sum] of a boolean vector. *)
Fixpoint np_sum (l : list bool) : Z :=
  match l with
  | [] => 0
  | b :: l' => (if b then 1 else 0) + np_sum l'
  end.

(** [a[m]] on buffers: the cells whose mask entry is true, in buffer order. *)
Fixpoint seleccionar {A} (l : list A) (m : list bool) : list A :=
  match l, m with
  | x :: l', b :: m' => if b then x :: seleccionar l' m' else seleccionar l' m'
  | _, _ => []
  end.

(** [a[~m] = v] on buffers. *)
Fixpoint blanquear_fuera {A} (v : A) (l : list A) (m : list bool) : list A :=
  match l, m with
  | x :: l', b :: m' => (if b then x else v) :: blanquear_fuera v l' m'
  | _, _ => l
  end.

(** Element-wise [|] and [&] on boolean buffers. *)
Fixpoint np_or (a b : list bool) : list bool :=
  match a, b with
  | x :: a', y :: b' => (x || y) :: np_or a' b'
  | _, _ => []
  end.

Fixpoint np_and (a b : list bool) : list bool :=
  match a, b with
  | x :: a', y :: b' => (x && y) :: np_and a' b'
  | _, _ => []
  end.

(** ** Colour classifier ([detectar_color_multiple]) *)

(** [np.all(np.abs(pixels - color) <= tolerancia, axis=2)] at one cell.
    The subtraction is carried out in [int64] (the colour tuple becomes an
    [int64] array), so no wrap-around occurs. *)
Definition coincide (tolerancia : Z) (color p : pixel) : bool :=
  let '(r, g, b) := p in
  let '(cr, cg, cb) := color in
  (Z.abs (r - cr) <=? tolerancia)
  && (Z.abs (g - cg) <=? tolerancia)
  && (Z.abs (b - cb) <=? tolerancia).

(** The loop [for color in colores_posibles: mask_total = mask_total | mask_color],
    started from [np.zeros(pixels.shape[:2], dtype=bool)]. *)
Definition detectar_color_multiple_datos
    (pixels : list pixel) (colores_posibles : list pixel) (tolerancia : Z)
  : list bool :=
  fold_left
    (fun mask_total color => np_or mask_total (map (coincide tolerancia color) pixels))
    colores_posibles
    (map (fun _ => false) pixels).

Definition detectar_color_multiple
    (pixels : ndarray pixel) (colores_posibles : list pixel) (tolerancia : Z)
  : ndarray bool :=
  Ndarray (filas pixels) (columnas pixels)
          (detectar_color_multiple_datos (datos pixels) colores_posibles tolerancia).

(** ** Severity classes ([clasificar_afectacion]) *)

Definition Qltb (a b : Q) : bool := negb (Qle_bool b a).

Definition clasificar_afectacion (porcentaje : Q) : string * string :=
  if Qeq_bool porcentaje 0 then ("SIN AFECTACIÓN", "✅")
  else if Qltb porcentaje 5 then ("MUY BAJA", "🟢")
  else if Qltb porcentaje 15 then ("BAJA", "🟡")
  else if Qltb porcentaje 35 then ("MODERADA", "🟠")
  else if Qltb porcentaje 60 then ("ALTA", "🔴")
  else ("MUY ALTA", "🔴").

(** ** Exceptions, heap objects and the heap monad *)

Inductive excepcion :=
  | KeyError
  | IndexError
  | ValueError
  | ZeroDivisionError
  | TypeError.

Inductive resultado_py (A : Type) :=
  | Devuelve (a : A)
  | Lanza (e : excepcion).
Arguments Devuelve {A} _.
Arguments Lanza {A} _.

(** A PIL image: its mode tag and the pixel content that
    [Image.convert('RGB')] yields for it (the conversion itself is PIL's). *)
Record imagen := Imagen {
  modo : string;
  contenido_rgb : ndarray pixel
}.

(** Objects that the analysis shares by reference. *)
Inductive objeto :=
  | OImagen (i : imagen)
  | OPixeles (a : ndarray pixel)
  | OBool (a : ndarray bool).

Definition ref := nat.
Definition heap := list objeto.

(** A computation takes the heap and returns its outcome together with
    the heap it leaves behind, also when it raises. *)
Definition M (A : Type) : Type := heap -> resultado_py A * heap.

Definition ret {A} (a : A) : M A := fun h => (Devuelve a, h).

Definition bind {A B} (c : M A) (k : A -> M B) : M B :=
  fun h =>
    match c h with
    | (Devuelve a, h') => k a h'
    | (Lanza e, h') => (Lanza e, h')
    end.

Definition lanza {A} (e : excepcion) : M A := fun h => (Lanza e, h).

Notation "x <- c ;; k" := (bind c (fun x => k))
  (at level 100, c at next level, right associativity).

Definition nuevo (o : objeto) : M ref :=
  fun h => (Devuelve (length h), h ++ [o]).

Definition lee_imagen (r : ref) : M imagen :=
  fun h => match h !! r with
           | Some (OImagen i) => (Devuelve i, h)
           | _ => (Lanza TypeError, h)
           end.

Definition lee_pixeles (r : ref) : M (ndarray pixel) :=
  fun h => match h !! r with
           | Some (OPixeles a) => (Devuelve a, h)
           | _ => (Lanza TypeError, h)
           end.

Definition lee_bool (r : ref) : M (ndarray bool) :=
  fun h => match h !! r with
           | Some (OBool a) => (Devuelve a, h)
           | _ => (Lanza TypeError, h)
           end.

Definition escribe (r : ref) (o : objeto) : M unit :=
  fun h => (Devuelve tt, <[r := o]> h).

(** [imagen.convert('RGB')]: a new image object. *)
Definition convert_rgb (r : ref) : M ref :=
  i <- lee_imagen r ;;
  nuevo (OImagen (Imagen "RGB" (contenido_rgb i))).

(** [np.array(imagen)]: a new array holding a copy of the image content. *)
Definition np_array (r : ref) : M ref :=
  i <- lee_imagen r ;;
  nuevo (OPixeles (contenido_rgb i)).

(** [a.copy()]. *)
Definition np_copy (r : ref) : M ref :=
  a <- lee_pixeles r ;;
  nuevo (OPixeles a).

(** [a[m]] with a boolean index: [IndexError] unless the shapes agree. *)
Definition getitem_mask (a : ndarray pixel) (m : ndarray bool)
  : M (list pixel) :=
  if shape_eqb (shape a) (shape m)
  then ret (seleccionar (datos a) (datos m))
  else lanza IndexError.

(** [a[~m] = v], in place on the array stored at [r]. *)
Definition setitem_fuera (r : ref) (m : ndarray bool) (v : pixel) : M unit :=
  a <- lee_pixeles r ;;
  if shape_eqb (shape a) (shape m)
  then escribe r (OPixeles (Ndarray (filas a) (columnas a)
                                     (blanquear_fuera v (datos a) (datos m))))
  else lanza IndexError.

(** [x & y] on boolean arrays of one shape (unequal shapes are never
    reached behind the index checks above). *)
Definition and_mask (x y : ndarray bool) : M (ndarray bool) :=
  if shape_eqb (shape x) (shape y)
  then ret (Ndarray (filas x) (columnas x) (np_and (datos x) (datos y)))
  else lanza ValueError.

(** ** The analyser object *)

Record config_capa := ConfigCapa {
  url : string;
  layer : string;
  colores_posibles : list pixel;
  tolerancia : Z
}.

(** A float produced by NumPy scalar division: division by zero warns and
    yields [nan] or an infinity instead of raising. *)
Inductive np_float :=
  | NaN
  | Inf (negativo : bool)
  | Fin (q : Q).

Definition np_truediv (n d : Z) : np_float :=
  if d =? 0 then (if n =? 0 then NaN else Inf (n <? 0))
  else Fin (inject_Z n / inject_Z d).

Definition por_100 (x : np_float) : np_float :=
  match x with
  | Fin q => Fin (q * 100)
  | other => other
  end.

(** The dictionary returned by [analizar_pixeles].  The percentages are
    the exact quotients (the final [round(_, 2)] is a float operation and is
    left out); the colour histogram and the surface estimate, which no
    statement below reads, are left out as well. *)
Record analisis := Analisis {
  total_pixels_poligono : Z;
  pixels_blancos : Z;
  area_util : Z;
  pixels_afectados : Z;
  porcentaje_afectacion : np_float;
  porcentaje_sobre_total : np_float;
  colores_buscados : list pixel;
  tolerancia_usada : Z
}.

Inductive informe :=
  | InformeError (error : string)
  | InformeAnalisis (a : analisis).

Record entrada := Entrada {
  entrada_imagen : option ref;
  entrada_analisis : informe
}.

Record caja := Caja { minx : Q; miny : Q; maxx : Q; maxy : Q }.

Record analizador := Analizador {
  bbox : option caja;
  coordenadas : list (Q * Q);
  mascara : option ref;
  capas : list (string * config_capa);
  resultados : gmap string entrada
}.

(** [d[k]] on an insertion-ordered dict kept as an association list. *)
Fixpoint dict_get {V} (d : list (string * V)) (k : string) : option V :=
  match d with
  | [] => None
  | (k', v) :: d' => if String.eqb k' k then Some v else dict_get d' k
  end.

Definition capas_getitem (self : analizador) (nombre_capa : string)
  : M config_capa :=
  match dict_get (capas self) nombre_capa with
  | Some c => ret c
  | None => lanza KeyError
  end.

(** ** [analizar_pixeles] *)

Definition canal_r (p : pixel) : Z := fst (fst p).
Definition canal_g (p : pixel) : Z := snd (fst p).
Definition canal_b (p : pixel) : Z := snd p.

(** [np.all(pixels_dentro > 240, axis=0)]: [pixels_dentro] has shape
    [(N, 3)], so the reduction runs over the N pixels and leaves one
    boolean per channel. *)
Definition blancos (pixels_dentro : list pixel) : list bool :=
  [ forallb (fun p => 240 <? canal_r p) pixels_dentro;
    forallb (fun p => 240 <? canal_g p) pixels_dentro;
    forallb (fun p => 240 <? canal_b p) pixels_dentro ].

Definition blanco : pixel := (255, 255, 255).

Definition porcentajes (num_afectados area_util total : Z)
  : np_float * np_float :=
  if area_util =? 0 then (Fin 0, Fin 0)
  else (por_100 (np_truediv num_afectados area_util),
        por_100 (np_truediv num_afectados total)).

Definition analizar_pixeles
    (self : analizador) (imagen : option ref) (nombre_capa : string)
  : M informe :=
  match imagen with
  | None => ret (InformeError "Imagen no disponible")
  | Some img =>
    config <- capas_getitem self nombre_capa ;;
    i <- lee_imagen img ;;
    img <- (if String.eqb (modo i) "RGB" then ret img else convert_rgb img) ;;
    pixels <- np_array img ;;
    arr <- lee_pixeles pixels ;;
    pixels_dentro <-
      match mascara self with
      | Some m => mk <- lee_bool m ;; getitem_mask arr mk
      | None => ret (datos arr)
      end ;;
    let total := Z.of_nat (length pixels_dentro) in
    let n_blancos := np_sum (blancos pixels_dentro) in
    let util := total - n_blancos in
    num_afectados <-
      match mascara self with
      | Some m =>
        mk <- lee_bool m ;;
        pixels_full_masked <- np_copy pixels ;;
        _ <- setitem_fuera pixels_full_masked mk blanco ;;
        full <- lee_pixeles pixels_full_masked ;;
        pixels_afectados_mask <-
          and_mask (detectar_color_multiple full (colores_posibles config)
                                            (tolerancia config)) mk ;;
        ret (np_sum (datos pixels_afectados_mask))
      | None =>
        ret (np_sum (datos (detectar_color_multiple
                              (Ndarray (filas arr) (columnas arr) pixels_dentro)
                              (colores_posibles config) (tolerancia config))))
      end ;;
    let '(pa, pt) := porcentajes num_afectados util total in
    ret (InformeAnalisis
           (Analisis total n_blancos util num_afectados pa pt
                     (colores_posibles config) (tolerancia config)))
  end.

(** ** Geometry: [parsear_kml] and [crear_mascara_poligono] *)

Definition punto : Type := Q * Q.
Definition anillo : Type := list punto.

(** The [coordinates] elements of a KML file in document order.  Each
    element is its whitespace-separated entries, each entry the numbers
    between its commas (the text-to-float step is ElementTree's and
    Python's, not the analyser's). *)
Definition kml : Type := list (list (list Q)).

(** Python's [min] and [max] on a list: [None] stands for the
    [ValueError] on an empty argument; ties keep the earlier element. *)
Definition py_min (l : list Q) : option Q :=
  match l with
  | [] => None
  | x :: l' => Some (fold_left (fun m y => if Qltb y m then y else m) l' x)
  end.

Definition py_max (l : list Q) : option Q :=
  match l with
  | [] => None
  | x :: l' => Some (fold_left (fun m y => if Qltb m y then y else m) l' x)
  end.

(** The loop over [coords_text.split()]: entries with fewer than two parts
    are skipped, further parts (altitude) are ignored. *)
Fixpoint leer_coordenadas (lineas : list (list Q)) : list punto :=
  match lineas with
  | [] => []
  | (lon :: lat :: _) :: resto => (lon, lat) :: leer_coordenadas resto
  | _ :: resto => leer_coordenadas resto
  end.

Definition con_geometria (self : analizador) (cs : list punto) (b : caja)
  : analizador :=
  Analizador (Some b) cs (mascara self) (capas self) (resultados self).

(** [root.find('.//kml:coordinates')] returns the first element only. *)
Definition parsear_kml (self : analizador) (doc : kml)
  : resultado_py analizador :=
  match doc with
  | [] => Lanza ValueError
  | coords_elem :: _ =>
    let cs := leer_coordenadas coords_elem in
    let lons := map fst cs in
    let lats := map snd cs in
    match py_min lons, py_min lats, py_max lons, py_max lats with
    | Some x0, Some y0, Some x1, Some y1 =>
      Devuelve (con_geometria self cs (Caja x0 y0 x1 y1))
    | _, _, _, _ => Lanza ValueError
    end
  end.

(** Python's [int] on a float: truncation towards zero. *)
Definition py_int (q : Q) : Z := Z.quot (Qnum q) (Zpos (Qden q)).

Definition Qnat (n : nat) : Q := inject_Z (Z.of_nat n).

(** One iteration of the vertex loop of [crear_mascara_poligono]. *)
Definition a_pixel (b : caja) (width height : nat) (c : punto)
  : resultado_py (Z * Z) :=
  let '(lon, lat) := c in
  if Qeq_bool (maxx b - minx b) 0 then Lanza ZeroDivisionError
  else if Qeq_bool (maxy b - miny b) 0 then Lanza ZeroDivisionError
  else Devuelve
         (py_int ((lon - minx b) / (maxx b - minx b) * Qnat width),
          py_int ((maxy b - lat) / (maxy b - miny b) * Qnat height)).

Fixpoint coords_pixel (b : option caja) (width height : nat) (cs : list punto)
  : resultado_py (list (Z * Z)) :=
  match cs with
  | [] => Devuelve []
  | c :: cs' =>
    match b with
    | None => Lanza TypeError
    | Some bb =>
      match a_pixel bb width height c with
      | Lanza e => Lanza e
      | Devuelve xy =>
        match coords_pixel b width height cs' with
        | Lanza e => Lanza e
        | Devuelve l => Devuelve (xy :: l)
        end
      end
    end
  end.

(** [ImageDraw.polygon(coords_pixel, fill=255)] on a [width] x [height]
    canvas, read back as the row-major buffer of [np.array(mascara) > 0].
    The fill itself is PIL's; the analyser is parametric in it. *)
Definition relleno_pil : Type := list (Z * Z) -> nat -> nat -> list bool.

Definition de_resultado {A} (r : resultado_py A) : M A :=
  fun h => (r, h).

Definition crear_mascara_poligono
    (polygon : relleno_pil) (self : analizador) (width height : nat)
  : M analizador :=
  cp <- de_resultado (coords_pixel (bbox self) width height (coordenadas self)) ;;
  m <- nuevo (OBool (Ndarray height width (polygon cp width height))) ;;
  ret (Analizador (bbox self) (coordenadas self) (Some m)
                  (capas self) (resultados self)).

(** ** Orchestration: [descargar_capa_wms] and [analizar_todas_capas] *)

(** The WMS request: [None] stands for any exception raised inside the
    [try] block (which the method turns into [return None]). *)
Definition servicio_wms : Type :=
  config_capa -> caja -> nat -> nat -> option imagen.

Definition descargar_capa_wms
    (wms : servicio_wms) (self : analizador) (nombre_capa : string)
    (width height : nat)
  : M (option ref) :=
  config <- capas_getitem self nombre_capa ;;
  match bbox self with
  | None => lanza TypeError
  | Some b =>
    match wms config b width height with
    | Some img => r <- nuevo (OImagen img) ;; ret (Some r)
    | None => ret None
    end
  end.

Definition guardar_resultado
    (self : analizador) (nombre_capa : string) (e : entrada) : analizador :=
  Analizador (bbox self) (coordenadas self) (mascara self) (capas self)
             (<[nombre_capa := e]> (resultados self)).

(** The body of [for nombre_capa in self.capas.keys()]. *)
Fixpoint bucle_capas
    (wms : servicio_wms) (width height : nat)
    (nombres : list string) (self : analizador)
  : M analizador :=
  match nombres with
  | [] => ret self
  | nombre_capa :: resto =>
    imagen <- descargar_capa_wms wms self nombre_capa width height ;;
    analisis <- analizar_pixeles self imagen nombre_capa ;;
    bucle_capas wms width height resto
                (guardar_resultado self nombre_capa (Entrada imagen analisis))
  end.

Definition analizar_todas_capas
    (polygon : relleno_pil) (wms : servicio_wms) (doc : kml)
    (self : analizador) (width height : nat)
  : M analizador :=
  self <- (match bbox self with
           | None => de_resultado (parsear_kml self doc)
           | Some _ => ret self
           end) ;;
  self <- crear_mascara_poligono polygon self width height ;;
  bucle_capas wms width height (map fst (capas self)) self.

(** ** The script [15.py] *)

Definition poligono : Type := list anillo.

(** The tuple [(lat_min, lon_min, lat_max, lon_max)] of the script. *)
Definition bbox15 : Type := Q * Q * Q * Q.

Definition zoom_factor : Q := 3.

Definition get_bbox_from_polygons (polygons : list poligono)
  : resultado_py bbox15 :=
  let all_coords := concat (concat polygons) in
  let lons := map fst all_coords in
  let lats := map snd all_coords in
  match py_min lats, py_max lats, py_min lons, py_max lons with
  | Some lat_min, Some lat_max, Some lon_min, Some lon_max =>
    let lat_center := (lat_min + lat_max) / 2 in
    let lon_center := (lon_min + lon_max) / 2 in
    let lat_half := (lat_max - lat_min) / 2 in
    let lon_half := (lon_max - lon_min) / 2 in
    Devuelve (lat_center - lat_half * zoom_factor,
              lon_center - lon_half * zoom_factor,
              lat_center + lat_half * zoom_factor,
              lon_center + lon_half * zoom_factor)
  | _, _, _, _ => Lanza ValueError
  end%Q.

(** [Polygon(exterior, interiors)] for every non-empty ring list. *)
Fixpoint polygons_to_shapely (polygons : list poligono)
  : list (anillo * list anillo) :=
  match polygons with
  | [] => []
  | [] :: resto => polygons_to_shapely resto
  | (exterior :: interiors) :: resto =>
    (exterior, interiors) :: polygons_to_shapely resto
  end.

(** Shapely's point predicates on one ring: [interior r p] for a point
    strictly inside the ring, [frontera r p] for a point on it.  Both are
    shapely's; the script is parametric in them. *)
Record shapely := Shapely {
  interior : anillo -> punto -> bool;
  frontera : anillo -> punto -> bool
}.

(** [Polygon(exterior, interiors).contains(Point)]: inside the shell and
    neither in nor on a hole. *)
Definition polygon_contains (sh : shapely) (g : anillo * list anillo) (p : punto)
  : bool :=
  interior sh (fst g) p
  && forallb (fun hueco => negb (interior sh hueco p || frontera sh hueco p))
             (snd g).

Definition multipolygon_contains
    (sh : shapely) (geoms : list (anillo * list anillo)) (p : punto) : bool :=
  existsb (fun g => polygon_contains sh g p) geoms.

(** [np.linspace(start, stop, num)]. *)
Definition linspace (start stop : Q) (num : nat) : list Q :=
  map (fun i =>
         if Nat.eqb num 1 then start
         else (start + Qnat i * ((stop - start) / (Qnat num - 1)))%Q)
      (seq 0 num).

(** The double loop that fills [mask[i, j]], as a row-major buffer. *)
Definition mascara15
    (sh : shapely) (parcela_polygons : list poligono) (bbox : bbox15)
    (width height : nat) : list bool :=
  let '(lat_min, lon_min, lat_max, lon_max) := bbox in
  let parcela_geom := polygons_to_shapely parcela_polygons in
  let xs := linspace lon_min lon_max width in
  let ys := linspace lat_min lat_max height in
  flat_map (fun y => map (fun x => multipolygon_contains sh parcela_geom (x, y)) xs)
           ys.

(** [calcular_porcentaje_pixeles]; [capa_img] is the content of
    [capa_img.convert("L")], one grey level per cell. *)
Definition calcular_porcentaje_pixeles
    (sh : shapely) (parcela_polygons : list poligono) (capa_img : ndarray Z)
    (bbox : bbox15) (umbral : Z) : Q :=
  let width := columnas capa_img in
  let height := filas capa_img in
  let mask := mascara15 sh parcela_polygons bbox width height in
  let arr_masked := seleccionar (datos capa_img) mask in
  let afectados := np_sum (map (fun v => v <? umbral) arr_masked) in
  let total := Z.of_nat (length arr_masked) in
  if 0 <? total then (inject_Z afectados / inject_Z total * 100)%Q else 0%Q.

(** ** The affine mapping of the specification

    These two definitions follow the specification text, not the source:
    pixel column [x] and row [y] of a [width] x [height] grid bound to a
    bounding box. *)
Definition spec_longitud (b : caja) (width : nat) (x : Z) : Q :=
  (minx b + inject_Z x / Qnat width * (maxx b - minx b))%Q.

Definition spec_latitud (b : caja) (height : nat) (y : Z) : Q :=
  (maxy b - inject_Z y / Qnat height * (maxy b - miny b))%Q.

(** ** A concrete even-odd rasteriser

    PIL's polygon fill and shapely's point predicates are library code
    outside the repository.  Where a concrete instance of [relleno_pil] or
    [shapely] is needed to evaluate the analyser, the even-odd rule named
    by the specification is used. *)

(** The edges of an implicitly closed ring. *)
Definition aristas (r : anillo) : list (punto * punto) :=
  match r with
  | [] => []
  | v :: resto => combine r (resto ++ [v])
  end.

(** Does the ray from [p] to the right cross the edge [e]? *)
Definition cruza (p : punto) (e : punto * punto) : bool :=
  let '(px, py) := p in
  let '((ax, ay), (bx, by_)) := e in
  negb (Bool.eqb (Qltb py ay) (Qltb py by_))
  && Qltb px ((bx - ax) * (py - ay) / (by_ - ay) + ax)%Q.

(** Modelled from the spec: the point-in-ring test by the even-odd rule
    (PIL's fill and shapely's [contains] are not in the repository): a
    point is inside a ring iff the ray to its right crosses an odd number
    of edges. *)
Definition par_impar (r : anillo) (p : punto) : bool :=
  fold_left (fun acc e => xorb acc (cruza p e)) (aristas r) false.

Definition entre (a b x : Q) : bool :=
  (Qle_bool a x && Qle_bool x b) || (Qle_bool b x && Qle_bool x a).

Definition en_segmento (p : punto) (e : punto * punto) : bool :=
  let '(px, py) := p in
  let '((ax, ay), (bx, by_)) := e in
  Qeq_bool ((bx - ax) * (py - ay) - (by_ - ay) * (px - ax))%Q 0
  && entre ax bx px && entre ay by_ py.

(** A point on some edge of the ring. *)
Definition en_frontera (r : anillo) (p : punto) : bool :=
  existsb (en_segmento p) (aristas r).

(** Modelled from the spec: shapely's two predicates on a ring (shapely is
    not in the repository), by the even-odd rule: strictly inside, and on
    an edge. *)
Definition shapely_par_impar : shapely :=
  Shapely (fun r p => par_impar r p && negb (en_frontera r p)) en_frontera.

(** Modelled from the spec: PIL's [ImageDraw.polygon] fill (PIL is not in
    the repository) as the even-odd test at the centre of every pixel,
    rows from the top, in buffer order. *)
Definition relleno_par_impar : relleno_pil :=
  fun coords width height =>
    let r := map (fun xy => (inject_Z (fst xy), inject_Z (snd xy))) coords in
    flat_map
      (fun y => map (fun x => par_impar r ((Qnat x + (1 # 2))%Q, (Qnat y + (1 # 2))%Q))
                    (seq 0 width))
      (seq 0 height).

(** ** [__init__]: the layer table and the initial object *)

Definition capas_iniciales : list (string * config_capa) :=
  [ ("montes_publicos",
     ConfigCapa "https://www.ign.es/wms-inspire/cubierta-tierra"
                "LC.ForestManagementUnit"
                [(34, 139, 34); (0, 128, 0); (46, 125, 50); (76, 175, 80)] 40);
    ("red_natura",
     ConfigCapa "https://servicios.idee.es/wms-inspire/protectedsites"
                "PS.ProtectedSite"
                [(0, 128, 0); (34, 139, 34); (0, 100, 0); (60, 179, 113)] 45);
    ("vias_pecuarias",
     ConfigCapa "https://www.mapa.gob.es/servicios/wms/vias-pecuarias"
                "viaspecuarias"
                [(165, 42, 42); (139, 69, 19); (160, 82, 45); (205, 133, 63)] 35);
    ("patrimonio_geologico",
     ConfigCapa "https://www.ign.es/wms-inspire/geologia"
                "GE.GeologicUnit"
                [(128, 128, 128); (169, 169, 169)] 50) ].

Definition analizador_nuevo : analizador :=
  Analizador None [] None capas_iniciales ∅.

(** ** What [analizar_pixeles] computes from the two buffers

    [analisis_de P Mk config] is the dictionary obtained from an image
    buffer [P] and a mask buffer [Mk]; [analizar_pixeles_con_mascara] below
    shows that the method returns it. *)
Definition analisis_de (P : list pixel) (Mk : list bool) (config : config_capa)
  : analisis :=
  let pixels_dentro := seleccionar P Mk in
  let total := Z.of_nat (length pixels_dentro) in
  let n_blancos := np_sum (blancos pixels_dentro) in
  let util := total - n_blancos in
  let num :=
    np_sum (np_and (detectar_color_multiple_datos
                      (blanquear_fuera blanco P Mk)
                      (colores_posibles config) (tolerancia config)) Mk) in
  Analisis total n_blancos util num
           (fst (porcentajes num util total)) (snd (porcentajes num util total))
           (colores_posibles config) (tolerancia config).

(** Number of cells of a buffer that satisfy a test. *)
Definition cuenta {A} (f : A -> bool) (l : list A) : Z :=
  Z.of_nat (length (filter (fun x => f x = true) l)).

(** A cell is near-white when its three channels all exceed 240. *)
Definition casi_blanco (p : pixel) : bool :=
  (240 <? canal_r p) && (240 <? canal_g p) && (240 <? canal_b p).

(** A cell matches when some target colour is within the tolerance. *)
Definition afectado (colores : list pixel) (tol : Z) (p : pixel) : bool :=
  existsb (fun c => coincide tol c p) colores.

(** ** Scenario data *)

(** A 100 x 100 all-white RGB image under a mask that covers the grid. *)
Definition imagen_blanca : imagen :=
  Imagen "RGB" (Ndarray 100 100 (repeat blanco (100 * 100)%nat)).

Definition mascara_llena : ndarray bool := Ndarray 100 100 (repeat true (100 * 100)%nat).

(** A 2 x 2 image under a mask with no cell set (polygon outside the box). *)
Definition imagen_2x2 : imagen :=
  Imagen "RGB" (Ndarray 2 2 [(34, 139, 34); (0, 0, 0); (255, 255, 255); (20, 130, 10)]).

Definition mascara_vacia : ndarray bool := Ndarray 2 2 [false; false; false; false].

(** An analyser whose mask is the object at heap address 1. *)
Definition analizador_con_mascara : analizador :=
  Analizador None [] (Some 1%nat) capas_iniciales ∅.

(** ** The report entry of one layer

    What [self.resultados] holds for layer [n] after the loop, according
    to the outcome of that layer's own download: an error entry without
    image when the download failed, an analysis together with the
    downloaded image otherwise. *)
Definition entrada_de (wms : servicio_wms) (width height : nat)
           (self' : analizador) (h' : heap) (b : caja)
           (n : string) (config : config_capa) : Prop :=
  match wms config b width height with
  | None =>
    resultados self' !! n
    = Some (Entrada None (InformeError "Imagen no disponible"))
  | Some img =>
    exists r a,
      resultados self' !! n = Some (Entrada (Some r) (InformeAnalisis a))
      /\ h' !! r = Some (OImagen img)
  end.

(** A service that delivers a 2 x 2 raster for the protected-sites layer
    and fails on every other layer; a square parcel. *)
Definition wms_ejemplo : servicio_wms :=
  fun config _ _ _ =>
    if String.eqb (layer config) "PS.ProtectedSite" then Some imagen_2x2 else None.

Definition kml_cuadrado : kml :=
  [ [ [0; 0]; [4; 0]; [4; 4]; [0; 4] ]%Q ].

(** A parcel in the southern half of the unit box (latitudes up to 1/2),
    and a 2 x 2 grey raster whose northern row is blank (255) and whose
    southern row shows the feature (0). *)
Definition parcela_sur : anillo :=
  [ (-1, -1); (2, -1); (2, 1 # 2); (-1, 1 # 2) ]%Q.

Definition caja_unidad15 : bbox15 := (0, 0, 1, 1)%Q.

Definition capa_sur : ndarray Z := Ndarray 2 2 [255; 255; 0; 0].

(** [es_minimo m l]: [m] is an element of [l] below every element. *)
Definition es_minimo (m : Q) (l : list Q) : Prop :=
  In m l /\ forall x, In x l -> (m <= x)%Q.

Definition es_maximo (m : Q) (l : list Q) : Prop :=
  In m l /\ forall x, In x l -> (x <= m)%Q.

(** ** Masks as values *)

(** The mask that [crear_mascara_poligono] leaves in [self.mascara],
    read back from a heap that was empty before the call. *)
Definition mascara_de (polygon : relleno_pil) (self : analizador)
           (width height : nat) : resultado_py (list bool) :=
  match crear_mascara_poligono polygon self width height [] with
  | (Lanza e, _) => Lanza e
  | (Devuelve self', h') =>
    match mascara self' with
    | None => Lanza TypeError
    | Some m =>
      match h' !! m with
      | Some (OBool a) => Devuelve (datos a)
      | _ => Lanza TypeError
      end
    end
  end.

(** [parsear_kml] on a fresh analyser followed by [crear_mascara_poligono]. *)
Definition mascara_kml (polygon : relleno_pil) (doc : kml)
           (width height : nat) : resultado_py (list bool) :=
  match parsear_kml analizador_nuevo doc with
  | Lanza e => Lanza e
  | Devuelve self => mascara_de polygon self width height
  end.

(** The sample points [Point(x, y)] of the double loop of
    [calcular_porcentaje_pixeles], in the order of the mask buffer. *)
Definition muestras15 (bbox : bbox15) (width height : nat) : list punto :=
  let '(lat_min, lon_min, lat_max, lon_max) := bbox in
  flat_map (fun y => map (fun x => (x, y)) (linspace lon_min lon_max width))
           (linspace lat_min lat_max height).

(** A square parcel with a square hole, as KML rings and as vertex lists. *)
Definition exterior_8 : anillo := [ (0, 0); (8, 0); (8, 8); (0, 8) ]%Q.
Definition hueco_8 : anillo := [ (2, 2); (6, 2); (6, 6); (2, 6) ]%Q.

Definition kml_con_hueco : kml :=
  [ [ [0; 0]; [8; 0]; [8; 8]; [0; 8] ]%Q;
    [ [2; 2]; [6; 2]; [6; 6]; [2; 6] ]%Q ].

Definition caja_8 : caja := Caja 0 0 8 8.

Definition analizador_anillo (r : anillo) : analizador :=
  Analizador (Some caja_8) r None capas_iniciales ∅.

(** Rings for the script: samples at 0, 2, 4, 6, 8 on each axis lie
    strictly inside [exterior_15] and off the edges of [hueco_15]. *)
Definition exterior_15 : anillo := [ (-1, -1); (9, -1); (9, 9); (-1, 9) ]%Q.
Definition hueco_15 : anillo := [ (1, 1); (5, 1); (5, 5); (1, 5) ]%Q.
Definition caja_15 : bbox15 := (0, 0, 8, 8)%Q.

(** ** Computations that only add objects to the heap *)

Definition extiende {A} (c : M A) : Prop :=
  forall h r h', c h = (r, h') -> exists ext, h' = h ++ ext.

(** ** The outcome of [analizar_pixeles] in terms of the objects it reads *)

(** The dictionary of the branch without a mask ([self.mascara is None]):
    every cell of the image takes part. *)
Definition analisis_sin_mascara (P : list pixel) (config : config_capa)
  : analisis :=
  let total := Z.of_nat (length P) in
  let n_blancos := np_sum (blancos P) in
  let util := total - n_blancos in
  let num :=
    np_sum (detectar_color_multiple_datos P (colores_posibles config)
                                          (tolerancia config)) in
  Analisis total n_blancos util num
           (fst (porcentajes num util total)) (snd (porcentajes num util total))
           (colores_posibles config) (tolerancia config).

(** [resultado_de self i mko nombre] is what the method yields for an image
    [i] and the mask array [mko] (if any): [analizar_pixeles_resultado]
    below shows it. *)
Definition resultado_de (self : analizador) (i : imagen)
           (mko : option (ndarray bool)) (nombre_capa : string)
  : resultado_py informe :=
  match dict_get (capas self) nombre_capa with
  | None => Lanza KeyError
  | Some config =>
    match mko with
    | None =>
      Devuelve (InformeAnalisis
                  (analisis_sin_mascara (datos (contenido_rgb i)) config))
    | Some mk =>
      if shape_eqb (shape (contenido_rgb i)) (shape mk)
      then Devuelve (InformeAnalisis
                       (analisis_de (datos (contenido_rgb i)) (datos mk) config))
      else Lanza IndexError
    end
  end.

(** [self.mascara] is either [None] or the address of a boolean array. *)
Definition mascara_en (self : analizador) (h : heap)
           (mko : option (ndarray bool)) : Prop :=
  match mascara self, mko with
  | None, None => True
  | Some m, Some mk => h !! m = Some (OBool mk)
  | _, _ => False
  end.

(** What every returned dictionary satisfies: the affected pixels are
    among the polygon pixels, the blank count is a number of channels, the
    usable area is their difference, the percentage over the usable area
    is a finite number, and the percentage over the total is a finite
    number or, with no polygon pixel at all, [nan]. *)
Definition analisis_coherente (a : analisis) : Prop :=
  0 <= pixels_afectados a <= total_pixels_poligono a
  /\ 0 <= pixels_blancos a <= 3
  /\ area_util a = total_pixels_poligono a - pixels_blancos a
  /\ (exists q, porcentaje_afectacion a = Fin q)
  /\ ((porcentaje_sobre_total a = NaN /\ total_pixels_poligono a = 0)
      \/ exists q, porcentaje_sobre_total a = Fin q).

(** A second 2 x 2 image that agrees with [imagen_2x2] on the diagonal
    cells and differs on the others; a mask of the diagonal. *)
Definition imagen_2x2_otra : imagen :=
  Imagen "RGBA" (Ndarray 2 2 [(34, 139, 34); (0, 128, 0); (34, 139, 34); (20, 130, 10)]).

Definition mascara_diagonal : ndarray bool := Ndarray 2 2 [true; false; false; true].

Definition analizador_sin_mascara : analizador :=
  Analizador None [] None capas_iniciales ∅.

(** A KML with a single vertex. *)
Definition kml_un_vertice : kml := [ [ [1; 2] ]%Q ].

(** A parcel that lies between the sample points 0, 2, 4, 6, 8. *)
Definition parcela_diminuta : anillo :=
  [ (9 # 4, 9 # 4); (11 # 4, 9 # 4); (11 # 4, 11 # 4); (9 # 4, 11 # 4) ]%Q.

Definition capa_gris_5x5 : ndarray Z :=
  Ndarray 5 5 [ 255; 255; 255; 255; 255;
                255; 100; 180; 255; 255;
                255; 220; 0; 255; 255;
                255; 255; 255; 255; 255;
                255; 255; 255; 255; 255 ].

(** ** [draw_kml_polygons]: the arrays handed to matplotlib's [Path] *)

Inductive codigo := MOVETO | LINETO | CLOSEPOLY.

(** Python's [[x] * n] for an integer [n]: empty when [n] is negative. *)
Definition py_repetir {A} (x : A) (n : Z) : list A := repeat x (Z.to_nat n).

(** One iteration of [for ring in rings]. *)
Definition ruta_paso (acc : list punto * list codigo) (ring : anillo)
  : list punto * list codigo :=
  let '(vertices, codes) := acc in
  (vertices ++ (ring ++ [(0, 0)%Q]),
   codes ++ ([MOVETO] ++ py_repetir LINETO (Z.of_nat (length ring) - 1)
             ++ [CLOSEPOLY])).

(** The pair [(vertices, codes)] built for one polygon. *)
Definition ruta_de_anillos (rings : poligono) : list punto * list codigo :=
  fold_left ruta_paso rings ([], []).

(** [draw_kml_polygons]: one path per polygon. *)
Definition draw_kml_polygons (polygons : list poligono)
  : list (list punto * list codigo) :=
  map ruta_de_anillos polygons.

(** ** [obtener_geometria_catastro]: the [posList] of the parcel *)

(** The loop [for i in range(0, len(coords_text), 2)]: latitude first,
    then longitude; [coords_text[i+1]] raises [IndexError] on a trailing
    single number. *)
Fixpoint leer_pos_list (coords_text : list Q) : resultado_py (list punto) :=
  match coords_text with
  | [] => Devuelve []
  | [_] => Lanza IndexError
  | lat :: lon :: resto =>
    match leer_pos_list resto with
    | Devuelve coords => Devuelve ((lon, lat) :: coords)
    | Lanza e => Lanza e
    end
  end.

(** The answer of the WFS request: [None] for a failed request, otherwise
    the numbers of the first [gml:posList] element, if there is one. *)
Definition respuesta_wfs : Type := option (option (list Q)).

(** The method returns the coordinates, or [None] when the request
    failed, when there is no [posList], or when an exception was caught. *)
Definition obtener_geometria_catastro (respuesta : respuesta_wfs)
  : option (list punto) :=
  match respuesta with
  | None => None
  | Some None => None
  | Some (Some coords_text) =>
    match leer_pos_list coords_text with
    | Devuelve coords => Some coords
    | Lanza _ => None
    end
  end.

(** The numbers of a [posList] that lists the given points. *)
Definition pos_list_de (coords : list punto) : list Q :=
  flat_map (fun c => [snd c; fst c]) coords.

(** ** [parse_kml_polygons] of the script *)

(** A loop that builds a list and lets the first exception escape. *)
Fixpoint para_cada {A B} (f : A -> resultado_py B) (l : list A)
  : resultado_py (list B) :=
  match l with
  | [] => Devuelve []
  | x :: l' =>
    match f x with
    | Lanza e => Lanza e
    | Devuelve y =>
      match para_cada f l' with
      | Lanza e => Lanza e
      | Devuelve ys => Devuelve (y :: ys)
      end
    end
  end.

(** A [Polygon] element: the [coordinates] texts found under its
    [outerBoundaryIs] and under its [innerBoundaryIs], each text as its
    whitespace-separated entries. *)
Record poligono_kml := PoligonoKml {
  outerBoundaryIs : list (list (list Q));
  innerBoundaryIs : list (list (list Q))
}.

(** [lon, lat, *_ = map(float, c.split(","))]: unpacking fewer than two
    values raises [ValueError]. *)
Definition leer_punto15 (c : list Q) : resultado_py punto :=
  match c with
  | lon :: lat :: _ => Devuelve (lon, lat)
  | _ => Lanza ValueError
  end.

Definition leer_anillo15 (ring : list (list Q)) : resultado_py anillo :=
  para_cada leer_punto15 ring.

(** [for ring_tag in ["outerBoundaryIs", "innerBoundaryIs"]]: the outer
    rings come first. *)
Definition leer_poligono15 (polygon : poligono_kml) : resultado_py poligono :=
  para_cada leer_anillo15 (outerBoundaryIs polygon ++ innerBoundaryIs polygon).

(** The document is the list of its placemarks, each the list of its
    polygons. *)
Definition parse_kml_polygons (doc : list (list poligono_kml))
  : resultado_py (list poligono) :=
  para_cada leer_poligono15 (concat doc).

(** Every entry of every ring of the document has at least two numbers. *)
Definition entradas_completas (doc : list (list poligono_kml)) : Prop :=
  forall placemark polygon ring c,
    In placemark doc -> In polygon placemark ->
    In ring (outerBoundaryIs polygon ++ innerBoundaryIs polygon) ->
    In c ring -> (2 <= length c)%nat.

(** A placemark with one polygon with a hole; and the same with an entry
    that lost its latitude. *)
Definition doc15_bueno : list (list poligono_kml) :=
  [ [ PoligonoKml [ [ [0; 0; 100]; [8; 0; 100]; [8; 8; 100]; [0; 8; 100] ]%Q ]
                  [ [ [2; 2]; [6; 2]; [6; 6]; [2; 6] ]%Q ] ] ].

Definition doc15_malo : list (list poligono_kml) :=
  [ [ PoligonoKml [ [ [0; 0]; [8]; [8; 8]; [0; 8] ]%Q ] [] ] ].

(** ** [validar_con_catastro]: the point sent to the cadastre *)

(** Python's [sum] over a generator of floats. *)
Definition py_sum (l : list Q) : Q := fold_left Qplus l 0%Q.

(** [lon_centro] and [lat_centro]: the mean of the stored vertices,
    computed only [if self.coordenadas]. *)
Definition centro_coordenadas (cs : list punto) : option punto :=
  match cs with
  | [] => None
  | _ => Some ((py_sum (map fst cs) / Qnat (length cs))%Q,
               (py_sum (map snd cs) / Qnat (length cs))%Q)
  end.

(** ** The PDF pages: [_generar_resumen_grafico] and [_generar_mapa_comparativo] *)

(** The colour of a layer's bar in the summary chart. *)
Definition color_barra (porc : Q) : string :=
  if Qeq_bool porc 0 then "#27AE60"
  else if Qltb porc 15 then "#F39C12"
  else if Qltb porc 35 then "#E67E22"
  else "#E74C3C".

(** [enumerate(l, 1)]. *)
Definition enumerate1 {A} (l : list A) : list (nat * A) :=
  combine (seq 1 (length l)) l.

Definition tiene_imagen (e : entrada) : bool :=
  match entrada_imagen e with
  | Some _ => true
  | None => false
  end.

(** The calls [plt.subplot(rows, cols, i)] of [_generar_mapa_comparativo],
    for the items of [self.resultados] in dictionary order: none when no
    layer has an image, otherwise one per layer with an image, numbered by
    the position of the layer among all layers. *)
Definition subplots_pedidos (items : list (string * entrada))
  : list (nat * nat * nat) :=
  let num_capas := length (filter (fun it => tiene_imagen (snd it) = true) items) in
  if Nat.eqb num_capas 0 then []
  else
    let cols := 2%nat in
    let rows := ((num_capas + 1) / 2)%nat in
    map (fun it => (rows, cols, fst it))
        (filter (fun it => tiene_imagen (snd (snd it)) = true) (enumerate1 items)).

(** ** [exportar_json]: the [afecciones] table *)

(** [if 'error' not in datos['analisis']]: only analysed layers are put
    into the exported table. *)
Definition afecciones_exportadas (self : analizador) : gmap string analisis :=
  omap (fun e => match entrada_analisis e with
                 | InformeAnalisis a => Some a
                 | InformeError _ => None
                 end)
       (resultados self).

(** Report items in which only the last layer has an image. *)
Definition items_ultima_con_imagen : list (string * entrada) :=
  [ ("montes_publicos", Entrada None (InformeError "Imagen no disponible"));
    ("red_natura", Entrada None (InformeError "Imagen no disponible"));
    ("vias_pecuarias", Entrada None (InformeError "Imagen no disponible"));
    ("patrimonio_geologico",
     Entrada (Some 1%nat)
             (InformeAnalisis (analisis_de (datos (contenido_rgb imagen_2x2))
                                           (datos mascara_diagonal)
                                           (ConfigCapa "" "" [(128, 128, 128)] 50)))) ].

(** ** Classifier lemmas *)

Lemma np_or_map {A} (f g : A -> bool) (l : list A) :
  np_or (map f l) (map g l) = map (fun x => f x || g x) l.
Proof. induction l as [|x l IH]; simpl; [reflexivity | now rewrite IH]. Qed.

Lemma fold_or_map (l : list pixel) (cs : list pixel) (t : Z) (f : pixel -> bool) :
  fold_left (fun acc c => np_or acc (map (coincide t c) l)) cs (map f l)
  = map (fun p => f p || existsb (fun c => coincide t c p) cs) l.
Proof.
  revert f. induction cs as [|c cs IH]; intros f; simpl.
  - apply map_ext. intros p. now rewrite orb_false_r.
  - rewrite np_or_map, IH. apply map_ext. intros p. now rewrite orb_assoc.
Qed.

(** The loop computes, cell by cell, "some colour matches". *)
Lemma detectar_color_multiple_datos_spec l cs t :
  detectar_color_multiple_datos l cs t
  = map (fun p => existsb (fun c => coincide t c p) cs) l.
Proof.
  unfold detectar_color_multiple_datos. now rewrite fold_or_map.
Qed.

Lemma coincide_mono t1 t2 c p :
  t1 <= t2 -> coincide t1 c p = true -> coincide t2 c p = true.
Proof.
  destruct p as [[r g] b], c as [[cr cg] cb]. unfold coincide. intros Ht.
  rewrite !andb_true_iff, !Z.leb_le. lia.
Qed.

(** ** Running the heap monad *)

Lemma bind_devuelve {A B} (c : M A) (k : A -> M B) h a h' :
  c h = (Devuelve a, h') -> bind c k h = k a h'.
Proof. unfold bind. now intros ->. Qed.

Lemma shape_eqb_refl s : shape_eqb s s = true.
Proof. unfold shape_eqb. now rewrite !Nat.eqb_refl. Qed.

Lemma lookup_nuevo (h : heap) (o : objeto) : (h ++ [o]) !! length h = Some o.
Proof. rewrite lookup_app_r by lia. now rewrite Nat.sub_diag. Qed.

Lemma lookup_viejo (h ext : heap) (r : ref) (o : objeto) :
  h !! r = Some o -> (h ++ ext) !! r = Some o.
Proof. intros H. now apply lookup_app_l_Some. Qed.

Lemma insert_nuevo (h : heap) (o o' : objeto) :
  <[length h := o']> (h ++ [o]) = h ++ [o'].
Proof.
  rewrite insert_app_r_alt by lia. now rewrite Nat.sub_diag.
Qed.

(** The fragment [pixels.copy()] followed by the in-place whitening. *)
Lemma copia_y_blanquea {B} (h : heap) (p : ref) (a : ndarray pixel)
      (mk : ndarray bool) (k : ref -> M B) :
  h !! p = Some (OPixeles a) ->
  shape a = shape mk ->
  (c <- np_copy p ;; _ <- setitem_fuera c mk blanco ;; k c) h
  = k (length h)
      (h ++ [OPixeles (Ndarray (filas a) (columnas a)
                               (blanquear_fuera blanco (datos a) (datos mk)))]).
Proof.
  intros Hp Hs. unfold np_copy, setitem_fuera, bind, lee_pixeles, nuevo, escribe.
  rewrite Hp. rewrite lookup_nuevo. rewrite Hs, shape_eqb_refl.
  now rewrite insert_nuevo.
Qed.

Lemma analizar_pixeles_con_mascara self h img i m mk nombre config :
  h !! img = Some (OImagen i) ->
  mascara self = Some m ->
  h !! m = Some (OBool mk) ->
  dict_get (capas self) nombre = Some config ->
  shape (contenido_rgb i) = shape mk ->
  exists ext,
    analizar_pixeles self (Some img) nombre h
    = (Devuelve (InformeAnalisis
                   (analisis_de (datos (contenido_rgb i)) (datos mk) config)),
       h ++ ext).
Proof.
  intros Hi Hm Hmk Hc Hs.
  unfold analizar_pixeles, capas_getitem. rewrite Hc, Hm.
  unfold bind at 1. unfold ret at 1.
  unfold bind at 1. unfold lee_imagen at 1. rewrite Hi.
  destruct (String.eqb (modo i) "RGB").
  - eexists.
    unfold bind at 1. unfold ret at 1.
    unfold bind at 1. unfold np_array, bind at 1, lee_imagen, nuevo. rewrite Hi.
    unfold bind at 1. unfold lee_pixeles at 1. rewrite lookup_nuevo.
    unfold bind at 1. unfold bind at 1. unfold lee_bool at 1.
    rewrite (lookup_viejo _ _ _ _ Hmk).
    unfold getitem_mask. rewrite Hs, shape_eqb_refl. unfold ret at 1.
    unfold bind at 1. unfold bind at 1. unfold lee_bool at 1.
    rewrite (lookup_viejo _ _ _ _ Hmk).
    erewrite copia_y_blanquea; [| apply lookup_nuevo | exact Hs].
    unfold bind at 1. unfold lee_pixeles at 1.
    rewrite length_app. simpl length.
    replace (length h + 1)%nat with (length (h ++ [OPixeles (contenido_rgb i)]))
      by (rewrite length_app; simpl; lia).
    rewrite lookup_nuevo.
    unfold bind at 1. unfold and_mask, detectar_color_multiple. simpl shape.
    unfold shape in Hs. injection Hs as Hf Hcn. rewrite Hf, Hcn.
    rewrite shape_eqb_refl. unfold ret at 1. unfold ret at 1. simpl datos.
    unfold analisis_de.
    destruct (porcentajes _ _ _) as [pa pt] eqn:Hp. simpl fst. simpl snd.
    unfold ret. rewrite <- !app_assoc. reflexivity.
  - eexists.
    unfold bind at 1. unfold convert_rgb, bind at 1, lee_imagen, nuevo. rewrite Hi.
    unfold bind at 1. unfold np_array, bind at 1, lee_imagen, nuevo.
    rewrite lookup_nuevo. simpl contenido_rgb.
    set (h1 := h ++ [OImagen (Imagen "RGB" (contenido_rgb i))]).
    assert (Hmk1 : h1 !! m = Some (OBool mk)) by (now apply lookup_viejo).
    unfold bind at 1. unfold lee_pixeles at 1. rewrite lookup_nuevo.
    unfold bind at 1. unfold bind at 1. unfold lee_bool at 1.
    rewrite (lookup_viejo _ _ _ _ Hmk1).
    unfold getitem_mask. rewrite Hs, shape_eqb_refl. unfold ret at 1.
    unfold bind at 1. unfold bind at 1. unfold lee_bool at 1.
    rewrite (lookup_viejo _ _ _ _ Hmk1).
    erewrite copia_y_blanquea; [| apply lookup_nuevo | exact Hs].
    unfold bind at 1. unfold lee_pixeles at 1.
    rewrite length_app. simpl length.
    replace (length h1 + 1)%nat with (length (h1 ++ [OPixeles (contenido_rgb i)]))
      by (rewrite length_app; simpl; lia).
    rewrite lookup_nuevo.
    unfold bind at 1. unfold and_mask, detectar_color_multiple. simpl shape.
    unfold shape in Hs. injection Hs as Hf Hcn. rewrite Hf, Hcn.
    rewrite shape_eqb_refl. unfold ret at 1. unfold ret at 1. simpl datos.
    unfold analisis_de.
    destruct (porcentajes _ _ _) as [pa pt] eqn:Hp. simpl fst. simpl snd.
    unfold ret. unfold h1. rewrite <- !app_assoc. reflexivity.
Qed.

(** ** Frame: computations that only add objects to the heap *)

Lemma extiende_ret {A} (a : A) : extiende (ret a).
Proof. intros h r h' [= _ <-]. exists []. now rewrite app_nil_r. Qed.

Lemma extiende_lanza {A} (e : excepcion) : extiende (@lanza A e).
Proof. intros h r h' [= _ <-]. exists []. now rewrite app_nil_r. Qed.

Lemma extiende_bind {A B} (c : M A) (k : A -> M B) :
  extiende c -> (forall a, extiende (k a)) -> extiende (bind c k).
Proof.
  intros Hc Hk h r h'. unfold bind.
  destruct (c h) as [[a|e] h1] eqn:E; destruct (Hc _ _ _ E) as [e1 ->].
  - intros Hb. destruct (Hk a _ _ _ Hb) as [e2 ->].
    exists (e1 ++ e2). now rewrite app_assoc.
  - intros [= _ <-]. now exists e1.
Qed.

Lemma extiende_nuevo o : extiende (nuevo o).
Proof. intros h r h' [= _ <-]. now exists [o]. Qed.

Lemma extiende_lee_imagen r : extiende (lee_imagen r).
Proof.
  intros h a h'. unfold lee_imagen.
  destruct (h !! r) as [[]|]; intros [= _ <-]; exists []; now rewrite app_nil_r.
Qed.

Lemma extiende_lee_pixeles r : extiende (lee_pixeles r).
Proof.
  intros h a h'. unfold lee_pixeles.
  destruct (h !! r) as [[]|]; intros [= _ <-]; exists []; now rewrite app_nil_r.
Qed.

Lemma extiende_lee_bool r : extiende (lee_bool r).
Proof.
  intros h a h'. unfold lee_bool.
  destruct (h !! r) as [[]|]; intros [= _ <-]; exists []; now rewrite app_nil_r.
Qed.

Lemma extiende_de_resultado {A} (r : resultado_py A) : extiende (de_resultado r).
Proof. intros h a h' [= _ <-]. exists []. now rewrite app_nil_r. Qed.

Create HintDb marco.
#[local] Hint Resolve extiende_ret extiende_lanza extiende_nuevo
  extiende_lee_imagen extiende_lee_pixeles extiende_lee_bool
  extiende_de_resultado : marco.

Lemma extiende_capas_getitem self n : extiende (capas_getitem self n).
Proof. unfold capas_getitem. destruct (dict_get _ _); auto with marco. Qed.

Lemma extiende_convert_rgb r : extiende (convert_rgb r).
Proof. apply extiende_bind; auto with marco. Qed.

Lemma extiende_np_array r : extiende (np_array r).
Proof. apply extiende_bind; auto with marco. Qed.

Lemma extiende_getitem_mask a m : extiende (getitem_mask a m).
Proof. unfold getitem_mask. destruct (shape_eqb _ _); auto with marco. Qed.

Lemma extiende_and_mask x y : extiende (and_mask x y).
Proof. unfold and_mask. destruct (shape_eqb _ _); auto with marco. Qed.

#[local] Hint Resolve extiende_capas_getitem extiende_convert_rgb
  extiende_np_array extiende_getitem_mask extiende_and_mask : marco.

(** The in-place write of [setitem_fuera] lands on the array that
    [np_copy] has just allocated, never on an older object. *)
Lemma extiende_copia_y_blanquea {B} (p : ref) (mk : ndarray bool) (v : pixel)
      (k : ref -> M B) :
  (forall c, extiende (k c)) ->
  extiende (c <- np_copy p ;; _ <- setitem_fuera c mk v ;; k c).
Proof.
  intros Hk h b h'.
  unfold np_copy, setitem_fuera, bind, lee_pixeles, nuevo, escribe, lanza.
  destruct (h !! p) as [[| a |]|];
    try (intros [= _ <-]; exists []; now rewrite app_nil_r).
  rewrite lookup_nuevo.
  destruct (shape_eqb (shape a) (shape mk)).
  - rewrite insert_nuevo. intros Hb.
    destruct (Hk _ _ _ _ Hb) as [e ->].
    eexists. now rewrite <- app_assoc.
  - intros [= _ <-]. now eexists.
Qed.

Lemma extiende_analizar_pixeles self imagen nombre :
  extiende (analizar_pixeles self imagen nombre).
Proof.
  unfold analizar_pixeles. destruct imagen as [img|]; [|auto with marco].
  apply extiende_bind; [auto with marco|]. intros config.
  apply extiende_bind; [auto with marco|]. intros i.
  apply extiende_bind; [destruct (String.eqb _ _); auto with marco|]. intros img'.
  apply extiende_bind; [auto with marco|]. intros pixels.
  apply extiende_bind; [auto with marco|]. intros arr.
  apply extiende_bind.
  { destruct (mascara self); [|auto with marco].
    apply extiende_bind; auto with marco. }
  intros pixels_dentro.
  apply extiende_bind.
  { destruct (mascara self); [|auto with marco].
    apply extiende_bind; [auto with marco|]. intros mk.
    apply extiende_copia_y_blanquea. intros c.
    apply extiende_bind; [auto with marco|]. intros full.
    apply extiende_bind; auto with marco. }
  intros num. destruct (porcentajes _ _ _). auto with marco.
Qed.

(** ** Counting lemmas *)

Lemma cuenta_cons {A} (f : A -> bool) x l :
  cuenta f (x :: l) = (if f x then 1 else 0) + cuenta f l.
Proof.
  unfold cuenta. rewrite filter_cons.
  destruct (decide (f x = true)) as [E|E].
  - rewrite E. simpl length. lia.
  - destruct (f x); [congruence|]. lia.
Qed.

Lemma np_sum_map_cuenta {A} (f : A -> bool) l : np_sum (map f l) = cuenta f l.
Proof.
  induction l as [|x l IH]; [reflexivity|].
  simpl. now rewrite cuenta_cons, IH.
Qed.

Lemma afectado_blanqueado cols tol P Mk :
  np_sum (np_and (detectar_color_multiple_datos (blanquear_fuera blanco P Mk) cols tol) Mk)
  = cuenta (afectado cols tol) (seleccionar P Mk).
Proof.
  rewrite detectar_color_multiple_datos_spec. fold (afectado cols tol).
  revert Mk. induction P as [|x P IH]; intros [|b Mk]; try reflexivity.
  simpl. rewrite IH. destruct b; simpl.
  - rewrite cuenta_cons. now rewrite andb_true_r.
  - now rewrite andb_false_r.
Qed.

Lemma blancos_le_3 l : 0 <= np_sum (blancos l) <= 3.
Proof.
  unfold blancos. simpl.
  destruct (forallb _ l), (forallb _ l), (forallb _ l); lia.
Qed.

Lemma seleccionar_repeat_false {A} (l : list A) n :
  seleccionar l (repeat false n) = [].
Proof.
  revert n. induction l as [|x l IH]; intros [|n]; simpl; auto.
Qed.

Lemma coincide_iff tol c p :
  coincide tol c p = true
  <-> Z.abs (canal_r p - canal_r c) <= tol
      /\ Z.abs (canal_g p - canal_g c) <= tol
      /\ Z.abs (canal_b p - canal_b c) <= tol.
Proof.
  destruct p as [[r g] b], c as [[cr cg] cb]. unfold coincide, canal_r, canal_g, canal_b.
  simpl. rewrite !andb_true_iff, !Z.leb_le. tauto.
Qed.

Lemma afectado_iff cols tol p :
  afectado cols tol p = true
  <-> exists c, In c cols
                /\ Z.abs (canal_r p - canal_r c) <= tol
                /\ Z.abs (canal_g p - canal_g c) <= tol
                /\ Z.abs (canal_b p - canal_b c) <= tol.
Proof.
  unfold afectado. rewrite existsb_exists.
  split; intros [c [Hin Hc]]; exists c; split; auto; now apply coincide_iff.
Qed.

Lemma afectado_mono cols t1 t2 p :
  t1 <= t2 -> afectado cols t1 p = true -> afectado cols t2 p = true.
Proof.
  intros Ht. unfold afectado. rewrite !existsb_exists.
  intros [c [Hin Hc]]. exists c. split; [exact Hin|]. eauto using coincide_mono.
Qed.

Lemma cuenta_mono {A} (f g : A -> bool) l :
  (forall x, f x = true -> g x = true) -> cuenta f l <= cuenta g l.
Proof.
  intros Hfg. induction l as [|x l IH]; [reflexivity|].
  rewrite !cuenta_cons. specialize (Hfg x).
  destruct (f x), (g x); try lia; discriminate (Hfg eq_refl).
Qed.

(** ** The classifier: OR over colours, AND over channels *)

(** C5: [detectar_color_multiple] marks a cell iff some target colour is
    within the tolerance on all three channels; [analizar_pixeles] reports
    as affected the number of polygon cells so marked, each counted once;
    the pixel (20,130,10) matches both (34,139,34) and (0,128,0) at
    tolerance 40 and contributes exactly 1. *)
Theorem C5_detectar_color_multiple_or :
  (forall pixels cols tol n p,
      datos pixels !! n = Some p ->
      exists v,
        datos (detectar_color_multiple pixels cols tol) !! n = Some v
        /\ (v = true <->
            exists c, In c cols
                      /\ Z.abs (canal_r p - canal_r c) <= tol
                      /\ Z.abs (canal_g p - canal_g c) <= tol
                      /\ Z.abs (canal_b p - canal_b c) <= tol))
  /\ (forall self h img i m mk nombre config,
         h !! img = Some (OImagen i) ->
         mascara self = Some m ->
         h !! m = Some (OBool mk) ->
         dict_get (capas self) nombre = Some config ->
         shape (contenido_rgb i) = shape mk ->
         exists a h',
           analizar_pixeles self (Some img) nombre h
           = (Devuelve (InformeAnalisis a), h')
           /\ pixels_afectados a
              = cuenta (afectado (colores_posibles config) (tolerancia config))
                       (seleccionar (datos (contenido_rgb i)) (datos mk)))
  /\ (coincide 40 (34, 139, 34) (20, 130, 10) = true
      /\ coincide 40 (0, 128, 0) (20, 130, 10) = true
      /\ np_sum (detectar_color_multiple_datos
                   [(20, 130, 10)] [(34, 139, 34); (0, 128, 0)] 40) = 1).
Proof.
  split; [|split].
  - intros pixels cols tol n p Hn. unfold detectar_color_multiple. simpl datos.
    rewrite detectar_color_multiple_datos_spec. fold (afectado cols tol).
    exists (afectado cols tol p). split.
    + rewrite list_lookup_fmap, Hn. reflexivity.
    + apply afectado_iff.
  - intros self h img i m mk nombre config Hi Hm Hmk Hc Hs.
    destruct (analizar_pixeles_con_mascara _ _ _ _ _ _ _ _ Hi Hm Hmk Hc Hs)
      as [ext Hrun].
    eexists _, _. split; [exact Hrun|].
    unfold analisis_de. simpl pixels_afectados. apply afectado_blanqueado.
  - repeat split; reflexivity.
Qed.

Lemma C5_witness :
  exists a h',
    analizar_pixeles analizador_con_mascara (Some 0%nat) "montes_publicos"
                     [OImagen imagen_2x2; OBool (Ndarray 2 2 [true; true; true; true])]
    = (Devuelve (InformeAnalisis a), h')
    /\ pixels_afectados a
       = cuenta (afectado [(34, 139, 34); (0, 128, 0); (46, 125, 50); (76, 175, 80)] 40)
                (seleccionar (datos (contenido_rgb imagen_2x2)) [true; true; true; true]).
Proof.
  apply (proj1 (proj2 C5_detectar_color_multiple_or)
               analizador_con_mascara
               [OImagen imagen_2x2; OBool (Ndarray 2 2 [true; true; true; true])]
               0%nat imagen_2x2 1%nat (Ndarray 2 2 [true; true; true; true])
               "montes_publicos"
               (ConfigCapa "https://www.ign.es/wms-inspire/cubierta-tierra"
                           "LC.ForestManagementUnit"
                           [(34, 139, 34); (0, 128, 0); (46, 125, 50); (76, 175, 80)] 40));
    reflexivity.
Defined.

(** ** Monotonicity in the tolerance *)

(** C9: for a fixed image and colour set and tolerances [t1 <= t2], every
    cell matched at [t1] is matched at [t2], and the number of matched
    cells does not decrease. *)
Theorem C9_detectar_color_multiple_monotono pixels cols t1 t2 :
  t1 <= t2 ->
  (forall n,
      datos (detectar_color_multiple pixels cols t1) !! n = Some true ->
      datos (detectar_color_multiple pixels cols t2) !! n = Some true)
  /\ np_sum (datos (detectar_color_multiple pixels cols t1))
     <= np_sum (datos (detectar_color_multiple pixels cols t2)).
Proof.
  intros Ht. unfold detectar_color_multiple. simpl datos.
  rewrite !detectar_color_multiple_datos_spec.
  fold (afectado cols t1). fold (afectado cols t2). split.
  - intros n. rewrite !list_lookup_fmap.
    destruct (datos pixels !! n) as [p|]; simpl; [|discriminate].
    intros [= H]. f_equal. eauto using afectado_mono.
  - rewrite !np_sum_map_cuenta. apply cuenta_mono.
    intros p. now apply afectado_mono.
Qed.

Lemma C9_witness :
  (forall n,
      datos (detectar_color_multiple (contenido_rgb imagen_2x2)
                                     [(34, 139, 34); (0, 128, 0)] 10) !! n = Some true ->
      datos (detectar_color_multiple (contenido_rgb imagen_2x2)
                                     [(34, 139, 34); (0, 128, 0)] 40) !! n = Some true)
  /\ np_sum (datos (detectar_color_multiple (contenido_rgb imagen_2x2)
                                            [(34, 139, 34); (0, 128, 0)] 10))
     <= np_sum (datos (detectar_color_multiple (contenido_rgb imagen_2x2)
                                               [(34, 139, 34); (0, 128, 0)] 40)).
Proof.
  apply (C9_detectar_color_multiple_monotono
           (contenido_rgb imagen_2x2) [(34, 139, 34); (0, 128, 0)] 10 40).
  lia.
Defined.

(** ** Blank pixels and the usable area *)

(** What the method reports as [pixels_blancos] is the number of channels
    (at most three) on which every polygon pixel exceeds 240. *)
Lemma pixels_blancos_es_por_canal P Mk config :
  pixels_blancos (analisis_de P Mk config)
  = np_sum [ forallb (fun p => 240 <? canal_r p) (seleccionar P Mk);
             forallb (fun p => 240 <? canal_g p) (seleccionar P Mk);
             forallb (fun p => 240 <? canal_b p) (seleccionar P Mk) ]
  /\ 0 <= pixels_blancos (analisis_de P Mk config) <= 3.
Proof. split; [reflexivity | apply blancos_le_3]. Qed.

(** Under a mask with no cell set the reduction over zero pixels is true
    on each channel. *)
Lemma analisis_de_mascara_vacia P n config :
  let a := analisis_de P (repeat false n) config in
  total_pixels_poligono a = 0
  /\ pixels_blancos a = 3
  /\ area_util a = -3
  /\ pixels_afectados a = 0
  /\ porcentaje_sobre_total a = NaN.
Proof.
  assert (Hn : np_sum (np_and (detectar_color_multiple_datos
                                 (blanquear_fuera blanco P (repeat false n))
                                 (colores_posibles config) (tolerancia config))
                              (repeat false n)) = 0).
  { rewrite afectado_blanqueado, seleccionar_repeat_false. reflexivity. }
  unfold analisis_de. simpl. rewrite Hn, seleccionar_repeat_false. simpl.
  repeat split; reflexivity.
Qed.

(** The same on the method itself, for every image and every mask of
    its shape with no cell set. *)
Lemma analizar_pixeles_mascara_vacia self h img i m n nombre config :
  h !! img = Some (OImagen i) ->
  mascara self = Some m ->
  h !! m = Some (OBool (Ndarray (filas (contenido_rgb i))
                                (columnas (contenido_rgb i)) (repeat false n))) ->
  dict_get (capas self) nombre = Some config ->
  exists a h',
    analizar_pixeles self (Some img) nombre h = (Devuelve (InformeAnalisis a), h')
    /\ total_pixels_poligono a = 0
    /\ pixels_blancos a = 3
    /\ area_util a = -3
    /\ pixels_afectados a = 0
    /\ porcentaje_sobre_total a = NaN.
Proof.
  intros Hi Hm Hmk Hc.
  destruct (analizar_pixeles_con_mascara _ _ _ _ _ _ _ _ Hi Hm Hmk Hc eq_refl)
    as [ext Hrun].
  eexists _, _. split; [exact Hrun|].
  apply analisis_de_mascara_vacia.
Qed.

(** C1, evaluated on its own scenario: for the 100 x 100 all-white image
    under the full mask, every one of the 10000 polygon pixels has its
    three channels above 240, yet the method reports 3 blank pixels and a
    usable area of 9997. *)
Theorem C1_analizar_pixeles_imagen_blanca :
  exists a h',
    analizar_pixeles analizador_con_mascara (Some 0%nat) "montes_publicos"
                     [OImagen imagen_blanca; OBool mascara_llena]
    = (Devuelve (InformeAnalisis a), h')
    /\ cuenta casi_blanco
              (seleccionar (datos (contenido_rgb imagen_blanca)) (datos mascara_llena))
       = 10000
    /\ total_pixels_poligono a = 10000
    /\ pixels_blancos a = 3
    /\ area_util a = 9997
    /\ pixels_afectados a = 0.
Proof.
  destruct (analizar_pixeles_con_mascara
              analizador_con_mascara
              [OImagen imagen_blanca; OBool mascara_llena]
              0%nat imagen_blanca 1%nat mascara_llena "montes_publicos"
              (ConfigCapa "https://www.ign.es/wms-inspire/cubierta-tierra"
                          "LC.ForestManagementUnit"
                          [(34, 139, 34); (0, 128, 0); (46, 125, 50); (76, 175, 80)] 40)
              eq_refl eq_refl eq_refl eq_refl eq_refl) as [ext Hrun].
  eexists _, _. split; [exact Hrun|].
  repeat split; vm_compute; reflexivity.
Qed.

(** C2, evaluated on an empty intersection: with no mask cell set the
    method reports 3 blank pixels, a usable area of -3 and a [nan]
    percentage over the total. *)
Theorem C2_analizar_pixeles_mascara_vacia :
  exists a h',
    analizar_pixeles analizador_con_mascara (Some 0%nat) "montes_publicos"
                     [OImagen imagen_2x2; OBool mascara_vacia]
    = (Devuelve (InformeAnalisis a), h')
    /\ total_pixels_poligono a = 0
    /\ pixels_blancos a = 3
    /\ area_util a = -3
    /\ pixels_afectados a = 0
    /\ porcentaje_sobre_total a = NaN.
Proof.
  eexists _, _. split; [vm_compute; reflexivity|].
  repeat split; reflexivity.
Qed.

(** ** The analysis leaves existing objects alone *)

(** C10: whether [analizar_pixeles] returns or raises, every object
    present in the heap before the call is unchanged afterwards; in
    particular the mask array and the caller's image.  The whitening writes
    to the array allocated by [pixels.copy()]. *)
Theorem C10_analizar_pixeles_no_modifica self imagen nombre h r h' :
  analizar_pixeles self imagen nombre h = (r, h') ->
  (forall (l : ref) o, h !! l = Some o -> h' !! l = Some o)
  /\ (forall m mk, mascara self = Some m -> h !! m = Some (OBool mk) ->
                   h' !! m = Some (OBool mk))
  /\ (forall img i, imagen = Some img -> h !! img = Some (OImagen i) ->
                    h' !! img = Some (OImagen i)).
Proof.
  intros Hrun. destruct (extiende_analizar_pixeles _ _ _ _ _ _ Hrun) as [ext ->].
  repeat split; intros; now apply lookup_viejo.
Qed.

Lemma C10_witness :
  exists r h',
    analizar_pixeles analizador_con_mascara (Some 0%nat) "montes_publicos"
                     [OImagen imagen_2x2; OBool (Ndarray 2 2 [true; false; false; true])]
    = (Devuelve r, h')
    /\ h' !! 3%nat
       = Some (OPixeles (Ndarray 2 2 [(34, 139, 34); blanco; blanco; (20, 130, 10)]))
    /\ (forall (l : ref) o,
           [OImagen imagen_2x2; OBool (Ndarray 2 2 [true; false; false; true])] !! l
           = Some o ->
           h' !! l = Some o).
Proof.
  eexists _, _. split; [vm_compute; reflexivity|]. split; [reflexivity|].
  refine (proj1 (C10_analizar_pixeles_no_modifica
                   analizador_con_mascara (Some 0%nat) "montes_publicos"
                   [OImagen imagen_2x2; OBool (Ndarray 2 2 [true; false; false; true])]
                   _ _ _)).
  vm_compute. reflexivity.
Defined.

(** ** Severity classes *)

Lemma Qltb_lt a b : Qltb a b = true <-> (a < b)%Q.
Proof.
  unfold Qltb. rewrite negb_true_iff. split.
  - intros H. apply Qnot_le_lt. intros Hle. apply Qle_bool_iff in Hle. congruence.
  - intros H. destruct (Qle_bool b a) eqn:E; [|reflexivity].
    apply Qle_bool_iff in E. exfalso. now apply (Qlt_not_le _ _ H).
Qed.

Lemma Qltb_ge a b : Qltb a b = false <-> (b <= a)%Q.
Proof.
  unfold Qltb. rewrite negb_false_iff. apply Qle_bool_iff.
Qed.

Lemma Qeq_bool_false a b : ~ (a == b)%Q -> Qeq_bool a b = false.
Proof.
  intros H. destruct (Qeq_bool a b) eqn:E; [|reflexivity].
  apply Qeq_bool_iff in E. contradiction.
Qed.

(** C8: [clasificar_afectacion] is a total function of the percentage with
    inclusive lower bounds.  The source labels are Spanish: "SIN AFECTACIÓN"
    (none), "MUY BAJA" (very low), "BAJA" (low), "MODERADA" (moderate),
    "ALTA" (high), "MUY ALTA" (very high). *)
Theorem C8_clasificar_afectacion_tramos :
  (forall p : Q,
      ((p == 0)%Q -> fst (clasificar_afectacion p) = "SIN AFECTACIÓN")
      /\ ((0 < p)%Q -> (p < 5)%Q -> fst (clasificar_afectacion p) = "MUY BAJA")
      /\ ((5 <= p)%Q -> (p < 15)%Q -> fst (clasificar_afectacion p) = "BAJA")
      /\ ((15 <= p)%Q -> (p < 35)%Q -> fst (clasificar_afectacion p) = "MODERADA")
      /\ ((35 <= p)%Q -> (p < 60)%Q -> fst (clasificar_afectacion p) = "ALTA")
      /\ ((60 <= p)%Q -> fst (clasificar_afectacion p) = "MUY ALTA"))
  /\ fst (clasificar_afectacion (4999 # 1000)) = "MUY BAJA"
  /\ fst (clasificar_afectacion 5) = "BAJA"
  /\ fst (clasificar_afectacion (59999 # 1000)) = "ALTA"
  /\ fst (clasificar_afectacion 60) = "MUY ALTA".
Proof.
  split; [|repeat split; reflexivity].
  intros p. unfold clasificar_afectacion.
  assert (H5 : (0 < 5)%Q) by reflexivity.
  assert (H15 : (5 < 15)%Q) by reflexivity.
  assert (H35 : (15 < 35)%Q) by reflexivity.
  assert (H60 : (35 < 60)%Q) by reflexivity.
  repeat split.
  - intros H0. apply Qeq_bool_iff in H0. now rewrite H0.
  - intros Hlo Hhi. rewrite Qeq_bool_false.
    + apply Qltb_lt in Hhi. now rewrite Hhi.
    + intros E. rewrite E in Hlo. now apply (Qlt_irrefl 0).
  - intros Hlo Hhi. rewrite Qeq_bool_false.
    + apply Qltb_ge in Hlo. apply Qltb_lt in Hhi. now rewrite Hlo, Hhi.
    + intros E. rewrite E in Hlo. now apply (Qlt_not_le _ _ H5).
  - intros Hlo Hhi.
    assert (L5 : (5 <= p)%Q) by (eapply Qle_trans; [apply Qlt_le_weak, H15 | exact Hlo]).
    rewrite Qeq_bool_false.
    + apply Qltb_ge in L5, Hlo. apply Qltb_lt in Hhi. now rewrite L5, Hlo, Hhi.
    + intros E. rewrite E in L5. now apply (Qlt_not_le _ _ H5).
  - intros Hlo Hhi.
    assert (L15 : (15 <= p)%Q) by (eapply Qle_trans; [apply Qlt_le_weak, H35 | exact Hlo]).
    assert (L5 : (5 <= p)%Q) by (eapply Qle_trans; [apply Qlt_le_weak, H15 | exact L15]).
    rewrite Qeq_bool_false.
    + apply Qltb_ge in L5, L15, Hlo. apply Qltb_lt in Hhi.
      now rewrite L5, L15, Hlo, Hhi.
    + intros E. rewrite E in L5. now apply (Qlt_not_le _ _ H5).
  - intros Hlo.
    assert (L35 : (35 <= p)%Q) by (eapply Qle_trans; [apply Qlt_le_weak, H60 | exact Hlo]).
    assert (L15 : (15 <= p)%Q) by (eapply Qle_trans; [apply Qlt_le_weak, H35 | exact L35]).
    assert (L5 : (5 <= p)%Q) by (eapply Qle_trans; [apply Qlt_le_weak, H15 | exact L15]).
    rewrite Qeq_bool_false.
    + apply Qltb_ge in L5, L15, L35, Hlo. now rewrite L5, L15, L35, Hlo.
    + intros E. rewrite E in L5. now apply (Qlt_not_le _ _ H5).
Qed.

Lemma C8_witness :
  fst (clasificar_afectacion (4999 # 1000)) = "MUY BAJA"
  /\ fst (clasificar_afectacion 5) = "BAJA"
  /\ fst (clasificar_afectacion 0) = "SIN AFECTACIÓN"
  /\ fst (clasificar_afectacion 20) = "MODERADA"
  /\ fst (clasificar_afectacion (59999 # 1000)) = "ALTA"
  /\ fst (clasificar_afectacion 60) = "MUY ALTA".
Proof.
  pose proof (proj1 C8_clasificar_afectacion_tramos) as H.
  refine (conj _ (conj _ (conj _ (conj _ (conj _ _))))).
  - apply (proj1 (proj2 (H (4999 # 1000)%Q))); reflexivity.
  - apply (proj1 (proj2 (proj2 (H 5%Q)))); [discriminate | reflexivity].
  - apply (proj1 (H 0%Q)); reflexivity.
  - apply (proj1 (proj2 (proj2 (proj2 (H 20%Q))))); [discriminate | reflexivity].
  - apply (proj1 (proj2 (proj2 (proj2 (proj2 (H (59999 # 1000)%Q)))))); [discriminate | reflexivity].
  - apply (proj2 (proj2 (proj2 (proj2 (proj2 (H 60%Q)))))); discriminate.
Defined.

(** ** Orchestration over the layer table *)

Lemma dict_get_in {V} (d : list (string * V)) n :
  In n (map fst d) -> exists v, dict_get d n = Some v.
Proof.
  induction d as [|[k v] d IH]; simpl; [tauto|].
  intros [<- | Hin].
  - rewrite String.eqb_refl. eauto.
  - destruct (String.eqb k n); eauto.
Qed.

Lemma analizar_pixeles_sin_imagen self nombre h :
  analizar_pixeles self None nombre h
  = (Devuelve (InformeError "Imagen no disponible"), h).
Proof. reflexivity. Qed.

Lemma descargar_capa_wms_paso wms self n width height h b config :
  bbox self = Some b ->
  dict_get (capas self) n = Some config ->
  descargar_capa_wms wms self n width height h
  = match wms config b width height with
    | Some img => (Devuelve (Some (length h)), h ++ [OImagen img])
    | None => (Devuelve None, h)
    end.
Proof.
  intros Hb Hc. unfold descargar_capa_wms, capas_getitem, bind. rewrite Hc, Hb.
  unfold ret at 1. destruct (wms config b width height); reflexivity.
Qed.

Section Bucle.
Variable wms : servicio_wms.
Variables width height : nat.

Lemma bucle_capas_completo nombres :
  forall self h b m mk,
    bbox self = Some b ->
    mascara self = Some m ->
    h !! m = Some (OBool mk) ->
    NoDup nombres ->
    (forall n, In n nombres -> In n (map fst (capas self))) ->
    (forall n config img,
        In n nombres -> dict_get (capas self) n = Some config ->
        wms config b width height = Some img ->
        shape (contenido_rgb img) = shape mk) ->
    exists self' h' ext,
      bucle_capas wms width height nombres self h = (Devuelve self', h')
      /\ h' = h ++ ext
      /\ capas self' = capas self
      /\ (forall n, ~ In n nombres -> resultados self' !! n = resultados self !! n)
      /\ (forall n config,
             In n nombres -> dict_get (capas self) n = Some config ->
             entrada_de wms width height self' h' b n config).
Proof.
  induction nombres as [|n0 resto IH];
    intros self h b m mk Hb Hm Hmk Hnd Hin Hsh.
  - exists self, h, []. simpl. unfold ret. rewrite app_nil_r.
    repeat split; auto. intros n config [].
  - apply NoDup_cons in Hnd as [Hn0 Hnd]. rewrite list_elem_of_In in Hn0.
    destruct (dict_get_in (capas self) n0 (Hin n0 (or_introl eq_refl)))
      as [c0 Hc0].
    simpl bucle_capas.
    pose proof (descargar_capa_wms_paso wms self n0 width height h b c0 Hb Hc0)
      as Hd.
    destruct (wms c0 b width height) as [img|] eqn:Hw.
    + (* the raster was obtained *)
      rewrite (bind_devuelve _ _ _ _ _ Hd).
      assert (Hmk1 : (h ++ [OImagen img]) !! m = Some (OBool mk))
        by now apply lookup_viejo.
      destruct (analizar_pixeles_con_mascara
                  self (h ++ [OImagen img]) (length h) img m mk n0 c0
                  (lookup_nuevo _ _) Hm Hmk1 Hc0
                  (Hsh n0 c0 img (or_introl eq_refl) Hc0 Hw))
        as [ext1 Ha].
      rewrite (bind_devuelve _ _ _ _ _ Ha).
      set (self1 := guardar_resultado self n0 _).
      set (h1 := (h ++ [OImagen img]) ++ ext1).
      assert (Hmk2 : h1 !! m = Some (OBool mk)) by now apply lookup_viejo.
      destruct (IH self1 h1 b m mk Hb Hm Hmk2 Hnd
                   (fun n H => Hin n (or_intror H))
                   (fun n c i H => Hsh n c i (or_intror H)))
        as (self' & h' & ext & Hrun & Hh' & Hcap & Hotros & Hent).
      exists self', h', ([OImagen img] ++ ext1 ++ ext).
      split; [exact Hrun|]. split.
      { rewrite Hh'. unfold h1. now rewrite <- !app_assoc. }
      split; [exact Hcap|]. split.
      { intros n Hn. rewrite Hotros by (intros H; apply Hn; now right).
        unfold self1, guardar_resultado. simpl resultados.
        apply lookup_insert_ne. intros ->. apply Hn. now left. }
      intros n config [<- | Hn] Hc.
      * rewrite Hc0 in Hc. injection Hc as <-.
        unfold entrada_de. rewrite Hw.
        eexists _, _. split.
        -- rewrite (Hotros n0 Hn0). unfold self1, guardar_resultado.
           simpl resultados. apply lookup_insert_eq.
        -- rewrite Hh'. apply lookup_viejo. unfold h1.
           apply lookup_viejo. apply lookup_nuevo.
      * now apply Hent.
    + (* the download failed *)
      rewrite (bind_devuelve _ _ _ _ _ Hd).
      rewrite (bind_devuelve _ _ _ _ _ (analizar_pixeles_sin_imagen self n0 h)).
      set (self1 := guardar_resultado self n0 _).
      destruct (IH self1 h b m mk Hb Hm Hmk Hnd
                   (fun n H => Hin n (or_intror H))
                   (fun n c i H => Hsh n c i (or_intror H)))
        as (self' & h' & ext & Hrun & Hh' & Hcap & Hotros & Hent).
      exists self', h', ext.
      split; [exact Hrun|]. split; [exact Hh'|].
      split; [exact Hcap|]. split.
      { intros n Hn. rewrite Hotros by (intros H; apply Hn; now right).
        unfold self1, guardar_resultado. simpl resultados.
        apply lookup_insert_ne. intros ->. apply Hn. now left. }
      intros n config [<- | Hn] Hc.
      * rewrite Hc0 in Hc. injection Hc as <-.
        unfold entrada_de. rewrite Hw.
        rewrite (Hotros n0 Hn0). unfold self1, guardar_resultado.
        simpl resultados. apply lookup_insert_eq.
      * now apply Hent.
Qed.
End Bucle.

Lemma dict_get_NoDup {V} (d : list (string * V)) n v :
  NoDup (map fst d) -> In (n, v) d -> dict_get d n = Some v.
Proof.
  induction d as [|[k w] d IH]; simpl; [tauto|].
  intros Hnd. apply NoDup_cons in Hnd as [Hk Hnd].
  intros [[= -> ->] | Hin].
  - now rewrite String.eqb_refl.
  - destruct (String.eqb k n) eqn:E; [|now apply IH].
    apply String.eqb_eq in E. subst k. exfalso. apply Hk.
    apply list_elem_of_In. apply in_map_iff. now exists (n, v).
Qed.

Lemma coords_pixel_ok b width height cs :
  Qeq_bool (maxx b - minx b) 0 = false ->
  Qeq_bool (maxy b - miny b) 0 = false ->
  exists cp, coords_pixel (Some b) width height cs = Devuelve cp.
Proof.
  intros Hx Hy. induction cs as [|[lon lat] cs [cp IH]]; simpl; [eauto|].
  unfold a_pixel. rewrite Hx, Hy, IH. eauto.
Qed.

Lemma crear_mascara_poligono_ok polygon self width height h b :
  bbox self = Some b ->
  Qeq_bool (maxx b - minx b) 0 = false ->
  Qeq_bool (maxy b - miny b) 0 = false ->
  exists cp,
    crear_mascara_poligono polygon self width height h
    = (Devuelve (Analizador (bbox self) (coordenadas self) (Some (length h))
                            (capas self) (resultados self)),
       h ++ [OBool (Ndarray height width (polygon cp width height))]).
Proof.
  intros Hb Hx Hy.
  destruct (coords_pixel_ok b width height (coordenadas self) Hx Hy) as [cp Hcp].
  exists cp. unfold crear_mascara_poligono, bind, de_resultado, nuevo, ret.
  now rewrite Hb, Hcp.
Qed.

(** C7: once the geometry is available, [analizar_todas_capas] returns,
    and its report has one entry for every layer of the table: the error
    entry when that layer's raster could not be obtained, an analysis
    otherwise, whatever happened to the other layers. *)
Theorem C7_analizar_todas_capas_informe_completo
        polygon wms doc self self0 b width height h :
  match bbox self with
  | None => parsear_kml self doc
  | Some _ => Devuelve self
  end = Devuelve self0 ->
  bbox self0 = Some b ->
  Qeq_bool (maxx b - minx b) 0 = false ->
  Qeq_bool (maxy b - miny b) 0 = false ->
  NoDup (map fst (capas self0)) ->
  (forall config img,
      wms config b width height = Some img ->
      shape (contenido_rgb img) = (height, width)) ->
  exists self' h',
    analizar_todas_capas polygon wms doc self width height h
    = (Devuelve self', h')
    /\ (forall n config,
           In (n, config) (capas self0) ->
           entrada_de wms width height self' h' b n config)
    /\ (forall n config,
           In (n, config) (capas self0) ->
           wms config b width height = None ->
           resultados self' !! n
           = Some (Entrada None (InformeError "Imagen no disponible"))).
Proof.
  intros Hgeo Hb Hx Hy Hnd Hsh.
  assert (Hstage :
            (match bbox self with
             | None => de_resultado (parsear_kml self doc)
             | Some _ => ret self
             end) h = (Devuelve self0, h)).
  { revert Hgeo. destruct (bbox self); unfold de_resultado, ret.
    - now intros [= ->].
    - now intros ->. }
  unfold analizar_todas_capas.
  rewrite (bind_devuelve _ _ _ _ _ Hstage).
  destruct (crear_mascara_poligono_ok polygon self0 width height h b Hb Hx Hy)
    as [cp Hmask].
  rewrite (bind_devuelve _ _ _ _ _ Hmask).
  set (self1 := Analizador _ _ _ _ _).
  set (mk := Ndarray height width (polygon cp width height)).
  destruct (bucle_capas_completo wms width height (map fst (capas self1))
              self1 (h ++ [OBool mk]) b (length h) mk
              Hb eq_refl (lookup_nuevo _ _) Hnd (fun n H => H)
              (fun n c i _ _ Hw => Hsh c i Hw))
    as (self' & h' & ext & Hrun & _ & _ & _ & Hent).
  assert (Hall : forall n config,
             In (n, config) (capas self0) ->
             entrada_de wms width height self' h' b n config).
  { intros n config Hin. apply Hent.
    - apply in_map_iff. now exists (n, config).
    - now apply dict_get_NoDup. }
  exists self', h'. split; [exact Hrun|]. split; [exact Hall|].
  intros n config Hin Hw. specialize (Hall n config Hin).
  unfold entrada_de in Hall. now rewrite Hw in Hall.
Qed.

Lemma C7_witness :
  exists self' h',
    analizar_todas_capas relleno_par_impar wms_ejemplo kml_cuadrado
                         analizador_nuevo 2 2 []
    = (Devuelve self', h')
    /\ resultados self' !! "montes_publicos"
       = Some (Entrada None (InformeError "Imagen no disponible"))
    /\ (exists r a,
           resultados self' !! "red_natura"
           = Some (Entrada (Some r) (InformeAnalisis a)))
    /\ resultados self' !! "vias_pecuarias"
       = Some (Entrada None (InformeError "Imagen no disponible"))
    /\ resultados self' !! "patrimonio_geologico"
       = Some (Entrada None (InformeError "Imagen no disponible")).
Proof.
  destruct (C7_analizar_todas_capas_informe_completo
              relleno_par_impar wms_ejemplo kml_cuadrado analizador_nuevo
              (Analizador (Some (Caja 0 0 4 4))
                          [(0, 0); (4, 0); (4, 4); (0, 4)]%Q
                          None capas_iniciales ∅)
              (Caja 0 0 4 4) 2%nat 2%nat [])
    as (self' & h' & Hrun & Hent & Herr).
  - reflexivity.
  - reflexivity.
  - reflexivity.
  - reflexivity.
  - apply (bool_decide_unpack _). vm_compute. exact I.
  - intros config img. unfold wms_ejemplo.
    destruct (String.eqb _ _); [intros [= <-]; reflexivity | discriminate].
  - exists self', h'. split; [exact Hrun|].
    refine (conj _ (conj _ (conj _ _))).
    + eapply Herr; [left; reflexivity | reflexivity].
    + destruct (Hent "red_natura" _ (or_intror (or_introl eq_refl)))
        as (r & a & Hr & _).
      eauto.
    + eapply Herr; [right; right; left; reflexivity | reflexivity].
    + eapply Herr; [right; right; right; left; reflexivity | reflexivity].
Defined.

(** ** Bounding boxes *)

Lemma fold_min_spec l : forall acc,
  let r := fold_left (fun m y => if Qltb y m then y else m) l acc in
  (r = acc \/ In r l) /\ (r <= acc)%Q /\ (forall x, In x l -> (r <= x)%Q).
Proof.
  induction l as [|y l IH]; intros acc; simpl.
  - split; [now left|]. split; [apply Qle_refl | tauto].
  - destruct (Qltb y acc) eqn:E.
    + destruct (IH y) as (Hr & Hle & Hall). apply Qltb_lt in E.
      split; [destruct Hr as [-> | Hr]; auto|]. split.
      * eapply Qle_trans; [exact Hle | now apply Qlt_le_weak].
      * intros x [<- | Hx]; auto.
    + destruct (IH acc) as (Hr & Hle & Hall). apply Qltb_ge in E.
      split; [destruct Hr as [-> | Hr]; auto|]. split; [exact Hle|].
      intros x [<- | Hx]; auto. eapply Qle_trans; eauto.
Qed.

Lemma fold_max_spec l : forall acc,
  let r := fold_left (fun m y => if Qltb m y then y else m) l acc in
  (r = acc \/ In r l) /\ (acc <= r)%Q /\ (forall x, In x l -> (x <= r)%Q).
Proof.
  induction l as [|y l IH]; intros acc; simpl.
  - split; [now left|]. split; [apply Qle_refl | tauto].
  - destruct (Qltb acc y) eqn:E.
    + destruct (IH y) as (Hr & Hle & Hall). apply Qltb_lt in E.
      split; [destruct Hr as [-> | Hr]; auto|]. split.
      * eapply Qle_trans; [apply Qlt_le_weak; exact E | exact Hle].
      * intros x [<- | Hx]; auto.
    + destruct (IH acc) as (Hr & Hle & Hall). apply Qltb_ge in E.
      split; [destruct Hr as [-> | Hr]; auto|]. split; [exact Hle|].
      intros x [<- | Hx]; auto. eapply Qle_trans; eauto.
Qed.

Lemma py_min_spec l :
  match py_min l with
  | None => l = []
  | Some m => es_minimo m l
  end.
Proof.
  destruct l as [|x l]; simpl; [reflexivity|].
  destruct (fold_min_spec l x) as (Hr & Hle & Hall). split.
  - destruct Hr as [-> | Hr]; [now left | now right].
  - intros y [<- | Hy]; auto.
Qed.

Lemma py_max_spec l :
  match py_max l with
  | None => l = []
  | Some m => es_maximo m l
  end.
Proof.
  destruct l as [|x l]; simpl; [reflexivity|].
  destruct (fold_max_spec l x) as (Hr & Hle & Hall). split.
  - destruct Hr as [-> | Hr]; [now left | now right].
  - intros y [<- | Hy]; auto.
Qed.

Lemma map_nil_inv {A B} (f : A -> B) l : map f l = [] -> l = [].
Proof. destruct l; [reflexivity | discriminate]. Qed.

(** C6 as the code has it: [parsear_kml] reads the first [coordinates]
    element only, raises [ValueError] when there is none or when it holds
    no vertex, and otherwise stores its vertices with their per-axis
    minimum and maximum; [get_bbox_from_polygons] raises [ValueError]
    without vertices and otherwise returns the minimum/maximum box over all
    vertices of all rings of all polygons, scaled by 3 about its centre.
    Neither rejects a box of zero extent. *)
Theorem C6_bbox_construccion :
  (forall self, parsear_kml self [] = Lanza ValueError)
  /\ (forall self coords_elem resto,
         leer_coordenadas coords_elem = [] ->
         parsear_kml self (coords_elem :: resto) = Lanza ValueError)
  /\ (forall self coords_elem resto,
         leer_coordenadas coords_elem <> [] ->
         exists b,
           parsear_kml self (coords_elem :: resto)
           = Devuelve (con_geometria self (leer_coordenadas coords_elem) b)
           /\ es_minimo (minx b) (map fst (leer_coordenadas coords_elem))
           /\ es_minimo (miny b) (map snd (leer_coordenadas coords_elem))
           /\ es_maximo (maxx b) (map fst (leer_coordenadas coords_elem))
           /\ es_maximo (maxy b) (map snd (leer_coordenadas coords_elem)))
  /\ (forall polygons : list poligono,
         concat (concat polygons) = [] ->
         get_bbox_from_polygons polygons = Lanza ValueError)
  /\ (forall polygons : list poligono,
         concat (concat polygons) <> [] ->
         exists lat_min lat_max lon_min lon_max,
           es_minimo lat_min (map snd (concat (concat polygons)))
           /\ es_maximo lat_max (map snd (concat (concat polygons)))
           /\ es_minimo lon_min (map fst (concat (concat polygons)))
           /\ es_maximo lon_max (map fst (concat (concat polygons)))
           /\ get_bbox_from_polygons polygons
              = Devuelve
                  ((lat_min + lat_max) / 2 - (lat_max - lat_min) / 2 * 3,
                   (lon_min + lon_max) / 2 - (lon_max - lon_min) / 2 * 3,
                   (lat_min + lat_max) / 2 + (lat_max - lat_min) / 2 * 3,
                   (lon_min + lon_max) / 2 + (lon_max - lon_min) / 2 * 3)%Q).
Proof.
  refine (conj _ (conj _ (conj _ (conj _ _)))).
  - reflexivity.
  - intros self coords_elem resto Hcs. unfold parsear_kml. now rewrite Hcs.
  - intros self coords_elem resto Hcs. unfold parsear_kml.
    set (cs := leer_coordenadas coords_elem) in *.
    pose proof (py_min_spec (map fst cs)) as Hx0.
    pose proof (py_min_spec (map snd cs)) as Hy0.
    pose proof (py_max_spec (map fst cs)) as Hx1.
    pose proof (py_max_spec (map snd cs)) as Hy1.
    destruct (py_min (map fst cs)) as [x0|]; [|now apply map_nil_inv in Hx0].
    destruct (py_min (map snd cs)) as [y0|]; [|now apply map_nil_inv in Hy0].
    destruct (py_max (map fst cs)) as [x1|]; [|now apply map_nil_inv in Hx1].
    destruct (py_max (map snd cs)) as [y1|]; [|now apply map_nil_inv in Hy1].
    exists (Caja x0 y0 x1 y1). simpl. auto.
  - intros polygons Hnil. unfold get_bbox_from_polygons. now rewrite Hnil.
  - intros polygons Hcs. unfold get_bbox_from_polygons.
    set (cs := concat (concat polygons)) in *.
    pose proof (py_min_spec (map snd cs)) as Hy0.
    pose proof (py_max_spec (map snd cs)) as Hy1.
    pose proof (py_min_spec (map fst cs)) as Hx0.
    pose proof (py_max_spec (map fst cs)) as Hx1.
    destruct (py_min (map snd cs)) as [y0|]; [|now apply map_nil_inv in Hy0].
    destruct (py_max (map snd cs)) as [y1|]; [|now apply map_nil_inv in Hy1].
    destruct (py_min (map fst cs)) as [x0|]; [|now apply map_nil_inv in Hx0].
    destruct (py_max (map fst cs)) as [x1|]; [|now apply map_nil_inv in Hx1].
    exists y0, y1, x0, x1. unfold zoom_factor. auto 10.
Qed.

Lemma C6_witness :
  exists b,
    parsear_kml analizador_nuevo kml_cuadrado
    = Devuelve (con_geometria analizador_nuevo [(0, 0); (4, 0); (4, 4); (0, 4)]%Q b)
    /\ es_minimo (minx b) [0; 4; 4; 0]%Q
    /\ es_minimo (miny b) [0; 0; 4; 4]%Q
    /\ es_maximo (maxx b) [0; 4; 4; 0]%Q
    /\ es_maximo (maxy b) [0; 0; 4; 4]%Q.
Proof.
  apply (proj1 (proj2 (proj2 C6_bbox_construccion))
               analizador_nuevo [ [0; 0]; [4; 0]; [4; 4]; [0; 4] ]%Q []).
  simpl. discriminate.
Defined.

(** C6 as stated fails: a single vertex gives a box with equal minimum
    and maximum on both axes and no error, in both functions; and the box
    returned by [get_bbox_from_polygons] for the vertices (0,0) and (2,4)
    is (-4,-2,8,4), three times the extent of the vertices. *)
Lemma C6_counterexample :
  parsear_kml analizador_nuevo [ [ [1; 2] ]%Q ]
  = Devuelve (con_geometria analizador_nuevo [(1, 2)%Q] (Caja 1 2 1 2))
  /\ (exists lat0 lon0 lat1 lon1,
         get_bbox_from_polygons [ [ [(1, 2)%Q] ] ]
         = Devuelve (lat0, lon0, lat1, lon1)
         /\ (lat0 == lat1 /\ lon0 == lon1)%Q)
  /\ (exists lat0 lon0 lat1 lon1,
         get_bbox_from_polygons [ [ [(0, 0); (2, 4)]%Q ] ]
         = Devuelve (lat0, lon0, lat1, lon1)
         /\ (lat0 == -4 /\ lon0 == -2 /\ lat1 == 8 /\ lon1 == 4)%Q).
Proof.
  split; [reflexivity|]. split.
  - eexists _, _, _, _. split; [reflexivity|]. split; reflexivity.
  - eexists _, _, _, _. split; [reflexivity|]. repeat split; reflexivity.
Qed.

(** ** The geographic-to-pixel mapping *)

Lemma py_int_inject q z : (q == inject_Z z)%Q -> py_int q = z.
Proof.
  unfold Qeq, py_int. simpl. rewrite Z.mul_1_r. intros ->.
  apply Z.quot_mul. discriminate.
Qed.

Lemma Qnat_no_cero n : (0 < n)%nat -> ~ (Qnat n == 0)%Q.
Proof. unfold Qnat, Qeq. simpl. lia. Qed.


(** The first sample of [np.linspace(start, stop, num)] is [start]. *)
Lemma linspace_primera start stop num :
  (0 < num)%nat ->
  exists y ys, linspace start stop num = y :: ys /\ (y == start)%Q.
Proof.
  intros Hn. destruct num as [|n]; [lia|].
  unfold linspace. simpl seq. simpl map.
  eexists _, _. split; [reflexivity|].
  destruct (Nat.eqb _ _); [reflexivity|].
  unfold Qnat. simpl inject_Z. ring.
Qed.

(** C3, evaluated on the unit box with a 2 x 2 raster: the script samples
    row 0 at latitude 0, the minimum, and row 1 at the maximum, whereas
    the specification's mapping and the mask builder put the maximum
    latitude on row 0.  A parcel in the southern half therefore selects
    the northern image row, and the feature drawn on the southern row is
    reported as 0 percent. *)
Theorem C3_calcular_porcentaje_pixeles_fila_0 :
  Forall2 Qeq (linspace 0 1 2) [0; 1]%Q
  /\ (spec_latitud (Caja 0 0 1 1) 2 0 == 1)%Q
  /\ a_pixel (Caja 0 0 1 1) 2 2 (0, 1)%Q = Devuelve (0, 0)
  /\ mascara15 shapely_par_impar [[parcela_sur]] caja_unidad15 2 2
     = [true; true; false; false]
  /\ (calcular_porcentaje_pixeles shapely_par_impar [[parcela_sur]] capa_sur
                                  caja_unidad15 250 == 0)%Q.
Proof.
  refine (conj _ (conj _ (conj _ (conj _ _)))).
  - repeat constructor.
  - reflexivity.
  - reflexivity.
  - vm_compute. reflexivity.
  - vm_compute. reflexivity.
Qed.

(** ** Rings and holes *)

Lemma flat_map_map_par {A B C} (f : A * B -> C) (xs : list A) (ys : list B) :
  flat_map (fun y => map (fun x => f (x, y)) xs) ys
  = map f (flat_map (fun y => map (fun x => (x, y)) xs) ys).
Proof.
  induction ys as [|y ys IH]; [reflexivity|].
  simpl. rewrite map_app, IH. f_equal. now rewrite map_map.
Qed.

Lemma mascara15_muestras sh parcela_polygons bbox width height :
  mascara15 sh parcela_polygons bbox width height
  = map (multipolygon_contains sh (polygons_to_shapely parcela_polygons))
        (muestras15 bbox width height).
Proof.
  destruct bbox as [[[lat_min lon_min] lat_max] lon_max].
  unfold mascara15, muestras15.
  apply (flat_map_map_par
           (multipolygon_contains sh (polygons_to_shapely parcela_polygons))).
Qed.

Lemma np_sum_resta (a b : punto -> bool) (l : list punto) :
  Forall (fun p => b p = true -> a p = true) l ->
  np_sum (map (fun p => a p && negb (b p)) l)
  = np_sum (map a l) - np_sum (map b l).
Proof.
  induction 1 as [|p l Hp _ IH]; [reflexivity|].
  simpl. rewrite IH. destruct (b p) eqn:Eb.
  - rewrite (Hp eq_refl). simpl. lia.
  - rewrite andb_true_r. simpl. lia.
Qed.

(** C4 as the code has it: the mask of [crear_mascara_poligono] is the
    fill of the first ring alone, whatever rings follow it in the KML; in
    the script, a sample of a polygon with rings [exterior :: huecos] is in
    the mask iff it is inside the exterior and neither inside nor on any
    hole, and for one hole whose samples lie inside the exterior and off
    its edge the count is the exterior count minus the hole count. *)
Theorem C4_mascara_y_huecos :
  (forall polygon exterior huecos width height,
      mascara_kml polygon (exterior :: huecos) width height
      = mascara_kml polygon [exterior] width height)
  /\ (forall sh (exterior : anillo) (huecos : list anillo) bbox width height n p,
         muestras15 bbox width height !! n = Some p ->
         exists v,
           mascara15 sh [exterior :: huecos] bbox width height !! n = Some v
           /\ (v = true <->
               interior sh exterior p = true
               /\ forall hueco, In hueco huecos ->
                                interior sh hueco p = false
                                /\ frontera sh hueco p = false))
  /\ (forall sh (exterior hueco : anillo) bbox width height,
         Forall (fun p => frontera sh hueco p = false)
                (muestras15 bbox width height) ->
         Forall (fun p => interior sh hueco p = true -> interior sh exterior p = true)
                (muestras15 bbox width height) ->
         np_sum (mascara15 sh [[exterior; hueco]] bbox width height)
         = np_sum (mascara15 sh [[exterior]] bbox width height)
           - np_sum (mascara15 sh [[hueco]] bbox width height)).
Proof.
  refine (conj _ (conj _ _)).
  - reflexivity.
  - intros sh exterior huecos bbox width height n p Hn.
    rewrite mascara15_muestras. simpl polygons_to_shapely.
    rewrite list_lookup_fmap, Hn. simpl.
    eexists. split; [reflexivity|].
    rewrite orb_false_r. unfold polygon_contains. simpl fst. simpl snd.
    rewrite andb_true_iff, forallb_forall.
    split; intros [Hext Hh]; (split; [exact Hext|]); intros hueco Hin.
    + specialize (Hh hueco Hin). rewrite negb_true_iff in Hh.
      now apply orb_false_elim in Hh.
    + destruct (Hh hueco Hin) as [-> ->]. reflexivity.
  - intros sh exterior hueco bbox width height Hfr Hin.
    rewrite !mascara15_muestras. simpl polygons_to_shapely.
    set (l := muestras15 bbox width height) in *.
    assert (Hsolo : forall r : anillo,
               map (multipolygon_contains sh [(r, [])]) l = map (interior sh r) l).
    { intros r. apply map_ext. intros p.
      unfold multipolygon_contains, polygon_contains. simpl.
      now rewrite andb_true_r, orb_false_r. }
    rewrite !Hsolo.
    rewrite <- (np_sum_resta (interior sh exterior) (interior sh hueco)) by exact Hin.
    f_equal. apply map_ext_Forall.
    apply Forall_impl with (1 := Hfr). intros p Hp.
    unfold multipolygon_contains, polygon_contains. simpl.
    rewrite Hp. rewrite !orb_false_r. now rewrite andb_true_r.
Qed.

Lemma C4_witness :
  np_sum (mascara15 shapely_par_impar [[exterior_15; hueco_15]] caja_15 5 5)
  = np_sum (mascara15 shapely_par_impar [[exterior_15]] caja_15 5 5)
    - np_sum (mascara15 shapely_par_impar [[hueco_15]] caja_15 5 5).
Proof.
  apply (proj2 (proj2 C4_mascara_y_huecos)
               shapely_par_impar exterior_15 hueco_15 caja_15 5%nat 5%nat).
  - apply (bool_decide_unpack _). vm_compute. exact I.
  - apply Forall_forall. intros p Hp _. revert p Hp. apply Forall_forall.
    apply (bool_decide_unpack _). vm_compute. exact I.
Defined.

(** C4 as stated fails for the mask builder: for the square parcel with
    a square hole on an 8 x 8 grid, the mask has all 64 cells set, as many
    as the mask of the exterior alone, although 16 cells are filled by the
    hole ring; the cell of pixel (3,3), inside the hole, is set. *)
Lemma C4_counterexample :
  exists m me mh,
    mascara_kml relleno_par_impar kml_con_hueco 8 8 = Devuelve m
    /\ mascara_de relleno_par_impar (analizador_anillo exterior_8) 8 8 = Devuelve me
    /\ mascara_de relleno_par_impar (analizador_anillo hueco_8) 8 8 = Devuelve mh
    /\ np_sum m = 64 /\ np_sum me = 64 /\ np_sum mh = 16
    /\ ~ (Z.abs (np_sum m - (np_sum me - np_sum mh)) <= 1)
    /\ m !! 27%nat = Some true
    /\ mh !! 27%nat = Some true.
Proof.
  eexists _, _, _.
  split; [vm_compute; reflexivity|].
  split; [vm_compute; reflexivity|].
  split; [vm_compute; reflexivity|].
  repeat split; try reflexivity.
  vm_compute. intros H. apply H. reflexivity.
Qed.

(** ** Every outcome of [analizar_pixeles] *)

Lemma shape_eqb_eq s t : shape_eqb s t = true -> s = t.
Proof.
  destruct s as [a b], t as [c d]. unfold shape_eqb. simpl.
  rewrite andb_true_iff, !Nat.eqb_eq. now intros [-> ->].
Qed.

Lemma lee_imagen_ok h r i :
  h !! r = Some (OImagen i) -> lee_imagen r h = (Devuelve i, h).
Proof. unfold lee_imagen. now intros ->. Qed.

Lemma lee_pixeles_ok h r a :
  h !! r = Some (OPixeles a) -> lee_pixeles r h = (Devuelve a, h).
Proof. unfold lee_pixeles. now intros ->. Qed.

Lemma lee_bool_ok h r a :
  h !! r = Some (OBool a) -> lee_bool r h = (Devuelve a, h).
Proof. unfold lee_bool. now intros ->. Qed.

Lemma np_array_ok h r i :
  h !! r = Some (OImagen i) ->
  np_array r h = (Devuelve (length h), h ++ [OPixeles (contenido_rgb i)]).
Proof.
  intros Hi. unfold np_array. now rewrite (bind_devuelve _ _ _ _ _ (lee_imagen_ok _ _ _ Hi)).
Qed.

(** The part of the method after [imagen.convert('RGB')], on an image
    object [i] at address [img]. *)
Lemma analizar_pixeles_cuerpo self h img i mko config :
  h !! img = Some (OImagen i) ->
  mascara_en self h mko ->
  exists ext,
    (pixels <- np_array img ;;
     arr <- lee_pixeles pixels ;;
     pixels_dentro <-
       match mascara self with
       | Some m => mk <- lee_bool m ;; getitem_mask arr mk
       | None => ret (datos arr)
       end ;;
     let total := Z.of_nat (length pixels_dentro) in
     let n_blancos := np_sum (blancos pixels_dentro) in
     let util := total - n_blancos in
     num_afectados <-
       match mascara self with
       | Some m =>
         mk <- lee_bool m ;;
         pixels_full_masked <- np_copy pixels ;;
         _ <- setitem_fuera pixels_full_masked mk blanco ;;
         full <- lee_pixeles pixels_full_masked ;;
         pixels_afectados_mask <-
           and_mask (detectar_color_multiple full (colores_posibles config)
                                             (tolerancia config)) mk ;;
         ret (np_sum (datos pixels_afectados_mask))
       | None =>
         ret (np_sum (datos (detectar_color_multiple
                               (Ndarray (filas arr) (columnas arr) pixels_dentro)
                               (colores_posibles config) (tolerancia config))))
       end ;;
     let '(pa, pt) := porcentajes num_afectados util total in
     ret (InformeAnalisis
            (Analisis total n_blancos util num_afectados pa pt
                      (colores_posibles config) (tolerancia config)))) h
    = (match mko with
       | None =>
         Devuelve (InformeAnalisis
                     (analisis_sin_mascara (datos (contenido_rgb i)) config))
       | Some mk =>
         if shape_eqb (shape (contenido_rgb i)) (shape mk)
         then Devuelve (InformeAnalisis
                          (analisis_de (datos (contenido_rgb i)) (datos mk) config))
         else Lanza IndexError
       end, h ++ ext).
Proof.
  intros Hi Hmk. unfold mascara_en in Hmk.
  rewrite (bind_devuelve _ _ _ _ _ (np_array_ok _ _ _ Hi)).
  set (h1 := h ++ [OPixeles (contenido_rgb i)]).
  assert (Hp : h1 !! length h = Some (OPixeles (contenido_rgb i)))
    by apply lookup_nuevo.
  rewrite (bind_devuelve _ _ _ _ _ (lee_pixeles_ok _ _ _ Hp)).
  destruct (mascara self) as [m|], mko as [mk|]; try contradiction.
  - assert (Hmk1 : h1 !! m = Some (OBool mk)) by now apply lookup_viejo.
    unfold bind at 1. unfold bind at 1.
    rewrite (lee_bool_ok _ _ _ Hmk1). unfold getitem_mask.
    destruct (shape_eqb (shape (contenido_rgb i)) (shape mk)) eqn:Hs.
    + unfold ret at 1.
      unfold bind at 1. unfold bind at 1. rewrite (lee_bool_ok _ _ _ Hmk1).
      apply shape_eqb_eq in Hs.
      rewrite (copia_y_blanquea h1 (length h) (contenido_rgb i) mk _ Hp Hs).
      unfold bind at 1. rewrite (lee_pixeles_ok _ _ _ (lookup_nuevo _ _)).
      unfold bind at 1. unfold and_mask, detectar_color_multiple. simpl shape.
      unfold shape in Hs. injection Hs as Hf Hcn. rewrite Hf, Hcn.
      rewrite shape_eqb_refl. unfold ret at 1. unfold ret at 1. simpl datos.
      unfold analisis_de.
      destruct (porcentajes _ _ _) as [pa pt]. simpl fst. simpl snd.
      unfold ret, h1. eexists. rewrite <- !app_assoc. reflexivity.
    + unfold lanza. exists [OPixeles (contenido_rgb i)]. reflexivity.
  - unfold bind at 1. unfold ret at 1.
    unfold bind at 1. unfold ret at 1.
    unfold detectar_color_multiple. simpl datos. unfold analisis_sin_mascara.
    destruct (porcentajes _ _ _) as [pa pt]. simpl fst. simpl snd.
    unfold ret, h1. eexists. reflexivity.
Qed.

Lemma mascara_en_viejo self h ext mko :
  mascara_en self h mko -> mascara_en self (h ++ ext) mko.
Proof.
  unfold mascara_en. destruct (mascara self), mko; auto using lookup_viejo.
Qed.

(** The method yields [resultado_de] and only adds objects to the heap. *)
Lemma analizar_pixeles_resultado self h img i mko nombre :
  h !! img = Some (OImagen i) ->
  mascara_en self h mko ->
  exists ext,
    analizar_pixeles self (Some img) nombre h
    = (resultado_de self i mko nombre, h ++ ext).
Proof.
  intros Hi Hmk. unfold analizar_pixeles, resultado_de, capas_getitem.
  destruct (dict_get (capas self) nombre) as [config|].
  - unfold bind at 1. unfold ret at 1.
    rewrite (bind_devuelve _ _ _ _ _ (lee_imagen_ok _ _ _ Hi)).
    destruct (String.eqb (modo i) "RGB").
    + unfold bind at 1. unfold ret at 1.
      apply (analizar_pixeles_cuerpo self h img i mko config Hi Hmk).
    + unfold bind at 1. unfold convert_rgb at 1.
      rewrite (bind_devuelve _ _ _ _ _ (lee_imagen_ok _ _ _ Hi)).
      unfold nuevo at 1.
      set (i' := Imagen "RGB" (contenido_rgb i)).
      destruct (analizar_pixeles_cuerpo self (h ++ [OImagen i']) (length h) i'
                  mko config (lookup_nuevo _ _) (mascara_en_viejo _ _ _ _ Hmk))
        as [ext Hrun].
      exists ([OImagen i'] ++ ext). rewrite app_assoc. exact Hrun.
  - exists []. rewrite app_nil_r. reflexivity.
Qed.

(** X1: for a layer name that is not in [self.capas], [analizar_pixeles]
    with an image and [descargar_capa_wms] both raise [KeyError] before
    touching the heap (the lookup precedes the [try] block and the pixel
    work), whereas [analizar_pixeles] with no image returns its error
    dictionary without looking the name up. *)
Theorem X1_capa_desconocida wms self nombre img width height h :
  dict_get (capas self) nombre = None ->
  analizar_pixeles self (Some img) nombre h = (Lanza KeyError, h)
  /\ descargar_capa_wms wms self nombre width height h = (Lanza KeyError, h)
  /\ analizar_pixeles self None nombre h
     = (Devuelve (InformeError "Imagen no disponible"), h).
Proof.
  intros Hc. unfold analizar_pixeles, descargar_capa_wms, capas_getitem.
  rewrite Hc. repeat split.
Qed.

Lemma X1_witness :
  analizar_pixeles analizador_con_mascara (Some 0%nat) "zonas_inundables"
                   [OImagen imagen_2x2; OBool mascara_vacia]
  = (Lanza KeyError, [OImagen imagen_2x2; OBool mascara_vacia])
  /\ descargar_capa_wms wms_ejemplo analizador_con_mascara "zonas_inundables" 2 2
                        [OImagen imagen_2x2; OBool mascara_vacia]
     = (Lanza KeyError, [OImagen imagen_2x2; OBool mascara_vacia])
  /\ analizar_pixeles analizador_con_mascara None "zonas_inundables"
                      [OImagen imagen_2x2; OBool mascara_vacia]
     = (Devuelve (InformeError "Imagen no disponible"),
        [OImagen imagen_2x2; OBool mascara_vacia]).
Proof.
  apply (X1_capa_desconocida wms_ejemplo analizador_con_mascara
                             "zonas_inundables" 0%nat 2%nat 2%nat).
  reflexivity.
Defined.

(** X2: when the downloaded image and the polygon mask differ in shape,
    [analizar_pixeles] raises [IndexError] (boolean indexing), and the
    objects that existed before the call are unchanged. *)
Theorem X2_forma_distinta self h img i m mk nombre config :
  h !! img = Some (OImagen i) ->
  mascara self = Some m ->
  h !! m = Some (OBool mk) ->
  dict_get (capas self) nombre = Some config ->
  shape (contenido_rgb i) <> shape mk ->
  exists ext,
    analizar_pixeles self (Some img) nombre h = (Lanza IndexError, h ++ ext).
Proof.
  intros Hi Hm Hmk Hc Hs.
  destruct (analizar_pixeles_resultado self h img i (Some mk) nombre Hi)
    as [ext Hrun].
  { unfold mascara_en. now rewrite Hm. }
  exists ext. rewrite Hrun. unfold resultado_de. rewrite Hc.
  destruct (shape_eqb _ _) eqn:E; [|reflexivity].
  apply shape_eqb_eq in E. contradiction.
Qed.

Lemma X2_witness :
  exists ext,
    analizar_pixeles analizador_con_mascara (Some 0%nat) "red_natura"
                     [OImagen imagen_2x2; OBool mascara_llena]
    = (Lanza IndexError, [OImagen imagen_2x2; OBool mascara_llena] ++ ext).
Proof.
  apply (X2_forma_distinta
           analizador_con_mascara [OImagen imagen_2x2; OBool mascara_llena]
           0%nat imagen_2x2 1%nat mascara_llena "red_natura"
           (ConfigCapa "https://servicios.idee.es/wms-inspire/protectedsites"
                       "PS.ProtectedSite"
                       [(0, 128, 0); (34, 139, 34); (0, 100, 0); (60, 179, 113)] 45));
    try reflexivity.
  discriminate.
Defined.

(** X3: idempotence.  Running [analizar_pixeles] a second time, on the
    heap left by the first run, gives the same outcome (the same
    dictionary, or the same exception). *)
Theorem X3_analizar_pixeles_idempotente self h img i mko nombre r h' :
  h !! img = Some (OImagen i) ->
  mascara_en self h mko ->
  analizar_pixeles self (Some img) nombre h = (r, h') ->
  exists h'', analizar_pixeles self (Some img) nombre h' = (r, h'').
Proof.
  intros Hi Hmk Hrun.
  destruct (analizar_pixeles_resultado self h img i mko nombre Hi Hmk)
    as [ext H1].
  rewrite H1 in Hrun. injection Hrun as <- <-.
  destruct (analizar_pixeles_resultado self (h ++ ext) img i mko nombre
              (lookup_viejo _ _ _ _ Hi) (mascara_en_viejo _ _ _ _ Hmk))
    as [ext2 H2].
  eauto.
Qed.

Lemma X3_witness :
  exists r h' h'',
    analizar_pixeles analizador_con_mascara (Some 0%nat) "montes_publicos"
                     [OImagen imagen_2x2; OBool (Ndarray 2 2 [true; false; true; true])]
    = (Devuelve r, h')
    /\ analizar_pixeles analizador_con_mascara (Some 0%nat) "montes_publicos" h'
       = (Devuelve r, h'').
Proof.
  eexists _, _. 
  assert (H1 : analizar_pixeles analizador_con_mascara (Some 0%nat) "montes_publicos"
                 [OImagen imagen_2x2; OBool (Ndarray 2 2 [true; false; true; true])]
               = (fst (analizar_pixeles analizador_con_mascara (Some 0%nat) "montes_publicos"
                 [OImagen imagen_2x2; OBool (Ndarray 2 2 [true; false; true; true])]),
                  snd (analizar_pixeles analizador_con_mascara (Some 0%nat) "montes_publicos"
                 [OImagen imagen_2x2; OBool (Ndarray 2 2 [true; false; true; true])])))
    by apply surjective_pairing.
  destruct (X3_analizar_pixeles_idempotente
              analizador_con_mascara
              [OImagen imagen_2x2; OBool (Ndarray 2 2 [true; false; true; true])]
              0%nat imagen_2x2 (Some (Ndarray 2 2 [true; false; true; true]))
              "montes_publicos" _ _ eq_refl eq_refl H1) as [h'' H2].
  exists h''. split; [|exact H2]. vm_compute. reflexivity.
Defined.

(** ** Invariants of the returned dictionary *)

Lemma cuenta_cotas {A} (f : A -> bool) l :
  0 <= cuenta f l <= Z.of_nat (length l).
Proof.
  induction l as [|x l IH]; [simpl; unfold cuenta; simpl; lia|].
  rewrite cuenta_cons. simpl length. destruct (f x); lia.
Qed.

Lemma porcentajes_finitos num util total :
  0 <= num <= total ->
  (exists q, fst (porcentajes num util total) = Fin q)
  /\ ((snd (porcentajes num util total) = NaN /\ total = 0)
      \/ exists q, snd (porcentajes num util total) = Fin q).
Proof.
  intros Hn. unfold porcentajes.
  destruct (util =? 0) eqn:Eu; simpl; [eauto|].
  unfold np_truediv. rewrite Eu. simpl. split; [eauto|].
  destruct (total =? 0) eqn:Et.
  - apply Z.eqb_eq in Et. assert (num = 0) as -> by lia. simpl. auto.
  - simpl. eauto.
Qed.

Lemma analisis_de_coherente P Mk config :
  analisis_coherente (analisis_de P Mk config).
Proof.
  unfold analisis_coherente, analisis_de.
  cbn [pixels_afectados total_pixels_poligono pixels_blancos area_util
       porcentaje_afectacion porcentaje_sobre_total].
  rewrite afectado_blanqueado.
  pose proof (cuenta_cotas (afectado (colores_posibles config) (tolerancia config))
                           (seleccionar P Mk)) as Hc.
  split; [exact Hc|]. split; [apply blancos_le_3|]. split; [reflexivity|].
  now apply porcentajes_finitos.
Qed.

Lemma analisis_sin_mascara_coherente P config :
  analisis_coherente (analisis_sin_mascara P config).
Proof.
  unfold analisis_coherente, analisis_sin_mascara.
  cbn [pixels_afectados total_pixels_poligono pixels_blancos area_util
       porcentaje_afectacion porcentaje_sobre_total].
  rewrite detectar_color_multiple_datos_spec.
  fold (afectado (colores_posibles config) (tolerancia config)).
  rewrite np_sum_map_cuenta.
  pose proof (cuenta_cotas (afectado (colores_posibles config) (tolerancia config)) P)
    as Hc.
  split; [exact Hc|]. split; [apply blancos_le_3|]. split; [reflexivity|].
  now apply porcentajes_finitos.
Qed.

(** X4: every dictionary that [analizar_pixeles] returns is coherent:
    0 <= affected <= total, 0 <= blank <= 3, usable = total - blank, the
    percentage over the usable area is finite (never [nan] or infinite),
    and the percentage over the total is finite unless the polygon has no
    pixel, in which case it is [nan]. *)
Theorem X4_analisis_coherente self h img i mko nombre a h' :
  h !! img = Some (OImagen i) ->
  mascara_en self h mko ->
  analizar_pixeles self (Some img) nombre h = (Devuelve (InformeAnalisis a), h') ->
  analisis_coherente a.
Proof.
  intros Hi Hmk Hrun.
  destruct (analizar_pixeles_resultado self h img i mko nombre Hi Hmk)
    as [ext H1].
  rewrite H1 in Hrun. injection Hrun as Hr _. revert Hr.
  unfold resultado_de.
  destruct (dict_get _ _) as [config|]; [|discriminate].
  destruct mko as [mk|].
  - destruct (shape_eqb _ _); [|discriminate].
    intros [= <-]. apply analisis_de_coherente.
  - intros [= <-]. apply analisis_sin_mascara_coherente.
Qed.

Lemma X4_witness :
  exists a h',
    analizar_pixeles analizador_con_mascara (Some 0%nat) "vias_pecuarias"
                     [OImagen imagen_blanca; OBool mascara_llena]
    = (Devuelve (InformeAnalisis a), h')
    /\ analisis_coherente a.
Proof.
  destruct (analizar_pixeles_resultado
              analizador_con_mascara [OImagen imagen_blanca; OBool mascara_llena]
              0%nat imagen_blanca (Some mascara_llena) "vias_pecuarias"
              eq_refl eq_refl) as [ext Hrun].
  eexists _, _. split; [exact Hrun|].
  exact (X4_analisis_coherente
           analizador_con_mascara [OImagen imagen_blanca; OBool mascara_llena]
           0%nat imagen_blanca (Some mascara_llena) "vias_pecuarias" _ _
           eq_refl eq_refl Hrun).
Defined.

(** X5: without a mask ([self.mascara is None]) every cell of the image
    is a polygon pixel: the total is the number of cells, the affected
    count is the number of matching cells, and no shape check can fail. *)
Theorem X5_sin_mascara self h img i nombre config :
  h !! img = Some (OImagen i) ->
  mascara self = None ->
  dict_get (capas self) nombre = Some config ->
  exists a ext,
    analizar_pixeles self (Some img) nombre h
    = (Devuelve (InformeAnalisis a), h ++ ext)
    /\ total_pixels_poligono a = Z.of_nat (length (datos (contenido_rgb i)))
    /\ pixels_afectados a
       = cuenta (afectado (colores_posibles config) (tolerancia config))
                (datos (contenido_rgb i)).
Proof.
  intros Hi Hm Hc.
  destruct (analizar_pixeles_resultado self h img i None nombre Hi)
    as [ext Hrun].
  { unfold mascara_en. now rewrite Hm. }
  unfold resultado_de in Hrun. rewrite Hc in Hrun.
  eexists _, ext. split; [exact Hrun|]. split; [reflexivity|].
  unfold analisis_sin_mascara. cbn [pixels_afectados].
  rewrite detectar_color_multiple_datos_spec.
  apply (np_sum_map_cuenta (afectado (colores_posibles config) (tolerancia config))).
Qed.

Lemma X5_witness :
  exists a ext,
    analizar_pixeles analizador_sin_mascara (Some 0%nat) "montes_publicos"
                     [OImagen imagen_2x2]
    = (Devuelve (InformeAnalisis a), [OImagen imagen_2x2] ++ ext)
    /\ total_pixels_poligono a = 4
    /\ pixels_afectados a
       = cuenta (afectado [(34, 139, 34); (0, 128, 0); (46, 125, 50); (76, 175, 80)] 40)
                (datos (contenido_rgb imagen_2x2)).
Proof.
  apply (X5_sin_mascara analizador_sin_mascara [OImagen imagen_2x2] 0%nat
                        imagen_2x2 "montes_publicos"
                        (ConfigCapa "https://www.ign.es/wms-inspire/cubierta-tierra"
                                    "LC.ForestManagementUnit"
                                    [(34, 139, 34); (0, 128, 0); (46, 125, 50); (76, 175, 80)] 40));
    reflexivity.
Defined.

Lemma analisis_de_seleccionar P P' Mk config :
  seleccionar P Mk = seleccionar P' Mk ->
  analisis_de P Mk config = analisis_de P' Mk config.
Proof.
  intros H. unfold analisis_de. rewrite !afectado_blanqueado. now rewrite H.
Qed.

(** X6: pixels outside the polygon never take part.  Two images of one
    shape that agree on the cells selected by the mask give the same
    outcome, whatever they show elsewhere and whatever their modes. *)
Theorem X6_fuera_no_cuenta self h img img' i i' m mk nombre :
  h !! img = Some (OImagen i) ->
  h !! img' = Some (OImagen i') ->
  mascara self = Some m ->
  h !! m = Some (OBool mk) ->
  shape (contenido_rgb i) = shape (contenido_rgb i') ->
  seleccionar (datos (contenido_rgb i)) (datos mk)
  = seleccionar (datos (contenido_rgb i')) (datos mk) ->
  fst (analizar_pixeles self (Some img) nombre h)
  = fst (analizar_pixeles self (Some img') nombre h).
Proof.
  intros Hi Hi' Hm Hmk Hs Hsel.
  assert (Hen : mascara_en self h (Some mk))
    by (unfold mascara_en; now rewrite Hm).
  destruct (analizar_pixeles_resultado self h img i (Some mk) nombre Hi Hen)
    as [ext ->].
  destruct (analizar_pixeles_resultado self h img' i' (Some mk) nombre Hi' Hen)
    as [ext' ->].
  simpl fst. unfold resultado_de.
  destruct (dict_get _ _) as [config|]; [|reflexivity].
  rewrite Hs. destruct (shape_eqb _ _); [|reflexivity].
  now rewrite (analisis_de_seleccionar _ _ _ config Hsel).
Qed.

Lemma X6_witness :
  fst (analizar_pixeles analizador_con_mascara (Some 0%nat) "montes_publicos"
         [OImagen imagen_2x2; OBool mascara_diagonal; OImagen imagen_2x2_otra])
  = fst (analizar_pixeles analizador_con_mascara (Some 2%nat) "montes_publicos"
           [OImagen imagen_2x2; OBool mascara_diagonal; OImagen imagen_2x2_otra]).
Proof.
  apply (X6_fuera_no_cuenta
           analizador_con_mascara
           [OImagen imagen_2x2; OBool mascara_diagonal; OImagen imagen_2x2_otra]
           0%nat 2%nat imagen_2x2 imagen_2x2_otra 1%nat mascara_diagonal
           "montes_publicos"); reflexivity.
Defined.

(** ** Degenerate and regular geometry *)

Lemma coords_pixel_extension_nula b width height cs :
  cs <> [] ->
  (minx b == maxx b)%Q \/ (miny b == maxy b)%Q ->
  coords_pixel (Some b) width height cs = Lanza ZeroDivisionError.
Proof.
  intros Hcs Hdeg. destruct cs as [|[lon lat] cs]; [contradiction|].
  simpl. unfold a_pixel.
  destruct (Qeq_bool (maxx b - minx b) 0) eqn:Ex; [reflexivity|].
  destruct (Qeq_bool (maxy b - miny b) 0) eqn:Ey; [reflexivity|].
  exfalso. destruct Hdeg as [H | H].
  - assert (E : Qeq_bool (maxx b - minx b) 0 = true)
      by (apply Qeq_bool_iff; rewrite H; ring).
    congruence.
  - assert (E : Qeq_bool (maxy b - miny b) 0 = true)
      by (apply Qeq_bool_iff; rewrite H; ring).
    congruence.
Qed.

(** X7: a parcel whose vertices share one longitude or one latitude (a
    single point, a north-south or an east-west line) has a bounding box of
    zero extent; [parsear_kml] accepts it, and [analizar_todas_capas] then
    raises [ZeroDivisionError] while building the mask, before any layer is
    downloaded and without touching the heap. *)
Theorem X7_extension_nula polygon wms doc self self0 b width height h :
  match bbox self with
  | None => parsear_kml self doc
  | Some _ => Devuelve self
  end = Devuelve self0 ->
  bbox self0 = Some b ->
  coordenadas self0 <> [] ->
  (minx b == maxx b)%Q \/ (miny b == maxy b)%Q ->
  crear_mascara_poligono polygon self0 width height h
  = (Lanza ZeroDivisionError, h)
  /\ analizar_todas_capas polygon wms doc self width height h
     = (Lanza ZeroDivisionError, h).
Proof.
  intros Hgeo Hb Hcs Hdeg.
  assert (Hmask : crear_mascara_poligono polygon self0 width height h
                  = (Lanza ZeroDivisionError, h)).
  { unfold crear_mascara_poligono, bind, de_resultado.
    now rewrite Hb, (coords_pixel_extension_nula b width height _ Hcs Hdeg). }
  split; [exact Hmask|].
  assert (Hstage :
            (match bbox self with
             | None => de_resultado (parsear_kml self doc)
             | Some _ => ret self
             end) h = (Devuelve self0, h)).
  { revert Hgeo. destruct (bbox self); unfold de_resultado, ret.
    - now intros [= ->].
    - now intros ->. }
  unfold analizar_todas_capas.
  rewrite (bind_devuelve _ _ _ _ _ Hstage).
  unfold bind at 1. now rewrite Hmask.
Qed.

Lemma X7_witness :
  crear_mascara_poligono relleno_par_impar
    (Analizador (Some (Caja 1 2 1 2)) [(1, 2)%Q] None capas_iniciales ∅) 2 2 []
  = (Lanza ZeroDivisionError, [])
  /\ analizar_todas_capas relleno_par_impar wms_ejemplo kml_un_vertice
                          analizador_nuevo 2 2 []
     = (Lanza ZeroDivisionError, []).
Proof.
  apply (X7_extension_nula relleno_par_impar wms_ejemplo kml_un_vertice
                           analizador_nuevo
                           (Analizador (Some (Caja 1 2 1 2)) [(1, 2)%Q] None
                                       capas_iniciales ∅)
                           (Caja 1 2 1 2) 2%nat 2%nat []).
  - reflexivity.
  - reflexivity.
  - discriminate.
  - left. reflexivity.
Defined.

Lemma parsear_kml_devuelve self doc self0 :
  parsear_kml self doc = Devuelve self0 ->
  exists b,
    bbox self0 = Some b
    /\ coordenadas self0 <> []
    /\ mascara self0 = mascara self
    /\ capas self0 = capas self
    /\ resultados self0 = resultados self
    /\ es_minimo (minx b) (map fst (coordenadas self0))
    /\ es_minimo (miny b) (map snd (coordenadas self0))
    /\ es_maximo (maxx b) (map fst (coordenadas self0))
    /\ es_maximo (maxy b) (map snd (coordenadas self0)).
Proof.
  unfold parsear_kml. destruct doc as [|coords_elem resto]; [discriminate|].
  set (cs := leer_coordenadas coords_elem).
  pose proof (py_min_spec (map fst cs)) as Hx0.
  pose proof (py_min_spec (map snd cs)) as Hy0.
  pose proof (py_max_spec (map fst cs)) as Hx1.
  pose proof (py_max_spec (map snd cs)) as Hy1.
  destruct (py_min (map fst cs)) as [x0|]; [|discriminate].
  destruct (py_min (map snd cs)) as [y0|]; [|discriminate].
  destruct (py_max (map fst cs)) as [x1|]; [|discriminate].
  destruct (py_max (map snd cs)) as [y1|]; [|discriminate].
  intros [= <-]. exists (Caja x0 y0 x1 y1). simpl.
  repeat split; try (apply Hx0 || apply Hy0 || apply Hx1 || apply Hy1).
  intros E. rewrite E in Hx0. destruct Hx0 as [[] _].
Qed.

Lemma py_int_cotas q W :
  (0 <= q)%Q -> (q <= inject_Z W)%Q -> 0 <= py_int q <= W.
Proof.
  unfold Qle, py_int. simpl. rewrite !Z.mul_1_r. intros H0 HW.
  rewrite Z.quot_div_nonneg by lia. split.
  - apply Z.div_pos; lia.
  - apply Z.div_le_upper_bound; lia.
Qed.

Lemma fraccion_cotas (t d : Q) (n : nat) :
  (0 < d)%Q -> (0 <= t)%Q -> (t <= d)%Q ->
  (0 <= t / d * Qnat n)%Q /\ (t / d * Qnat n <= inject_Z (Z.of_nat n))%Q.
Proof.
  intros Hd Ht0 Htd.
  assert (Hn : (0 <= Qnat n)%Q) by (unfold Qnat, Qle; simpl; lia).
  assert (H0 : (0 <= t / d)%Q).
  { apply Qle_shift_div_l; [exact Hd|]. now rewrite Qmult_0_l. }
  assert (H1 : (t / d <= 1)%Q).
  { apply Qle_shift_div_r; [exact Hd|]. now rewrite Qmult_1_l. }
  split.
  - apply Qmult_le_0_compat; assumption.
  - apply Qle_trans with (1 * Qnat n)%Q.
    + apply Qmult_le_compat_r; assumption.
    + rewrite Qmult_1_l. apply Qle_refl.
Qed.

Lemma Qresta_cotas (lo x hi : Q) :
  (lo <= x)%Q -> (x <= hi)%Q ->
  (0 <= x - lo)%Q /\ (x - lo <= hi - lo)%Q
  /\ (0 <= hi - x)%Q /\ (hi - x <= hi - lo)%Q.
Proof.
  intros Hlo Hhi. repeat split.
  - apply (proj1 (Qle_minus_iff lo x)). exact Hlo.
  - unfold Qminus. apply Qplus_le_l. exact Hhi.
  - apply (proj1 (Qle_minus_iff x hi)). exact Hhi.
  - unfold Qminus. apply Qplus_le_r. apply Qopp_le_compat. exact Hlo.
Qed.

Lemma Qlt_no_cero (lo hi : Q) : (lo < hi)%Q -> Qeq_bool (hi - lo) 0 = false.
Proof.
  intros Hlt. apply Qeq_bool_false. intros E.
  apply (proj1 (Qlt_minus_iff lo hi)) in Hlt. unfold Qminus in E.
  rewrite E in Hlt. now apply (Qlt_irrefl 0).
Qed.

Lemma coords_pixel_cotas b width height cs :
  (minx b < maxx b)%Q -> (miny b < maxy b)%Q ->
  Forall (fun c => (minx b <= fst c)%Q /\ (fst c <= maxx b)%Q
                   /\ (miny b <= snd c)%Q /\ (snd c <= maxy b)%Q) cs ->
  exists cp,
    coords_pixel (Some b) width height cs = Devuelve cp
    /\ length cp = length cs
    /\ Forall (fun xy => 0 <= fst xy <= Z.of_nat width
                         /\ 0 <= snd xy <= Z.of_nat height) cp.
Proof.
  intros Hx Hy Hcs.
  assert (Hdx : (0 < maxx b - minx b)%Q)
    by (apply (proj1 (Qlt_minus_iff _ _)); exact Hx).
  assert (Hdy : (0 < maxy b - miny b)%Q)
    by (apply (proj1 (Qlt_minus_iff _ _)); exact Hy).
  induction Hcs as [|[lon lat] cs (Hx0 & Hx1 & Hy0 & Hy1) _ (cp & IH & Hlen & Hall)].
  - exists []. simpl. auto.
  - simpl in Hx0, Hx1, Hy0, Hy1. simpl coords_pixel. unfold a_pixel.
    rewrite (Qlt_no_cero _ _ Hx), (Qlt_no_cero _ _ Hy), IH.
    eexists. split; [reflexivity|]. split; [simpl; now rewrite Hlen|].
    constructor; [|exact Hall]. simpl.
    destruct (Qresta_cotas _ _ _ Hx0 Hx1) as (A1 & A2 & _ & _).
    destruct (Qresta_cotas _ _ _ Hy0 Hy1) as (_ & _ & B1 & B2).
    destruct (fraccion_cotas _ _ width Hdx A1 A2) as [C1 C2].
    destruct (fraccion_cotas _ _ height Hdy B1 B2) as [D1 D2].
    split; apply py_int_cotas; assumption.
Qed.

(** X8: after [parsear_kml], if the box has positive extent on both axes,
    the vertex loop of [crear_mascara_poligono] raises nothing and every
    vertex lands on the canvas, with 0 <= x <= width and 0 <= y <= height
    (the far edges included). *)
Theorem X8_vertices_en_el_lienzo self doc self0 b width height :
  parsear_kml self doc = Devuelve self0 ->
  bbox self0 = Some b ->
  (minx b < maxx b)%Q ->
  (miny b < maxy b)%Q ->
  exists cp,
    coords_pixel (bbox self0) width height (coordenadas self0) = Devuelve cp
    /\ length cp = length (coordenadas self0)
    /\ Forall (fun xy => 0 <= fst xy <= Z.of_nat width
                         /\ 0 <= snd xy <= Z.of_nat height) cp.
Proof.
  intros Hp Hb Hx Hy.
  destruct (parsear_kml_devuelve _ _ _ Hp)
    as (b' & Hb' & _ & _ & _ & _ & Hx0 & Hy0 & Hx1 & Hy1).
  rewrite Hb in Hb'. injection Hb' as <-. rewrite Hb.
  apply coords_pixel_cotas; [exact Hx | exact Hy |].
  apply Forall_forall. intros [lon lat] Hin. apply list_elem_of_In in Hin. simpl.
  repeat split.
  - apply Hx0. apply in_map_iff. now exists (lon, lat).
  - apply Hx1. apply in_map_iff. now exists (lon, lat).
  - apply Hy0. apply in_map_iff. now exists (lon, lat).
  - apply Hy1. apply in_map_iff. now exists (lon, lat).
Qed.

Lemma X8_witness :
  exists cp,
    coords_pixel (Some caja_8) 8 8 exterior_8 = Devuelve cp
    /\ length cp = 4%nat
    /\ Forall (fun xy => 0 <= fst xy <= 8 /\ 0 <= snd xy <= 8) cp.
Proof.
  apply (X8_vertices_en_el_lienzo
           analizador_nuevo kml_con_hueco
           (Analizador (Some caja_8) exterior_8 None capas_iniciales ∅)
           caja_8 8%nat 8%nat); reflexivity.
Defined.

(** ** The script: bounding box and percentages *)

Lemma get_bbox_devuelve (polygons : list poligono) lat0 lon0 lat1 lon1 :
  get_bbox_from_polygons polygons = Devuelve (lat0, lon0, lat1, lon1) ->
  exists lat_min lat_max lon_min lon_max,
    es_minimo lat_min (map snd (concat (concat polygons)))
    /\ es_maximo lat_max (map snd (concat (concat polygons)))
    /\ es_minimo lon_min (map fst (concat (concat polygons)))
    /\ es_maximo lon_max (map fst (concat (concat polygons)))
    /\ lat0 = ((lat_min + lat_max) / 2 - (lat_max - lat_min) / 2 * 3)%Q
    /\ lon0 = ((lon_min + lon_max) / 2 - (lon_max - lon_min) / 2 * 3)%Q
    /\ lat1 = ((lat_min + lat_max) / 2 + (lat_max - lat_min) / 2 * 3)%Q
    /\ lon1 = ((lon_min + lon_max) / 2 + (lon_max - lon_min) / 2 * 3)%Q.
Proof.
  unfold get_bbox_from_polygons.
  set (cs := concat (concat polygons)).
  pose proof (py_min_spec (map snd cs)) as Hy0.
  pose proof (py_max_spec (map snd cs)) as Hy1.
  pose proof (py_min_spec (map fst cs)) as Hx0.
  pose proof (py_max_spec (map fst cs)) as Hx1.
  destruct (py_min (map snd cs)) as [y0|]; [|discriminate].
  destruct (py_max (map snd cs)) as [y1|]; [|discriminate].
  destruct (py_min (map fst cs)) as [x0|]; [|discriminate].
  destruct (py_max (map fst cs)) as [x1|]; [|discriminate].
  unfold zoom_factor. intros [= <- <- <- <-].
  exists y0, y1, x0, x1. auto 10.
Qed.

Lemma zoom_cotas (lo hi v : Q) :
  (lo <= v)%Q -> (v <= hi)%Q ->
  ((lo + hi) / 2 - (hi - lo) / 2 * 3 <= v)%Q
  /\ (v <= (lo + hi) / 2 + (hi - lo) / 2 * 3)%Q.
Proof.
  intros Hlo Hhi.
  assert (E0 : ((lo + hi) / 2 - (hi - lo) / 2 * 3 == 2 * lo - hi)%Q) by field.
  assert (E1 : ((lo + hi) / 2 + (hi - lo) / 2 * 3 == 2 * hi - lo)%Q) by field.
  rewrite E0, E1. split; lra.
Qed.

(** X9: the box returned by [get_bbox_from_polygons] contains every
    vertex of every ring of every polygon (the zoom only widens it). *)
Theorem X9_bbox_contiene_los_vertices
        (polygons : list poligono) lat0 lon0 lat1 lon1 :
  get_bbox_from_polygons polygons = Devuelve (lat0, lon0, lat1, lon1) ->
  forall (poly : poligono) (ring : anillo) lon lat,
    In poly polygons -> In ring poly -> In (lon, lat) ring ->
    (lat0 <= lat)%Q /\ (lat <= lat1)%Q /\ (lon0 <= lon)%Q /\ (lon <= lon1)%Q.
Proof.
  intros Hb poly ring lon lat Hp Hr Hv.
  destruct (get_bbox_devuelve _ _ _ _ _ Hb)
    as (y0 & y1 & x0 & x1 & [_ Hy0] & [_ Hy1] & [_ Hx0] & [_ Hx1]
        & -> & -> & -> & ->).
  assert (Hin : In (lon, lat) (concat (concat polygons))).
  { apply in_concat. exists ring. split; [|exact Hv].
    apply in_concat. exists poly. split; assumption. }
  assert (Hlat : In lat (map snd (concat (concat polygons))))
    by (apply in_map_iff; now exists (lon, lat)).
  assert (Hlon : In lon (map fst (concat (concat polygons))))
    by (apply in_map_iff; now exists (lon, lat)).
  specialize (Hy0 _ Hlat). specialize (Hy1 _ Hlat).
  specialize (Hx0 _ Hlon). specialize (Hx1 _ Hlon).
  destruct (zoom_cotas _ _ _ Hy0 Hy1). destruct (zoom_cotas _ _ _ Hx0 Hx1).
  auto.
Qed.

Lemma X9_witness :
  exists lat0 lon0 lat1 lon1,
    get_bbox_from_polygons [[exterior_8; hueco_8]]
    = Devuelve (lat0, lon0, lat1, lon1)
    /\ (lat0 <= 6)%Q /\ (6 <= lat1)%Q /\ (lon0 <= 2)%Q /\ (2 <= lon1)%Q.
Proof.
  eexists _, _, _, _. split; [reflexivity|].
  apply (X9_bbox_contiene_los_vertices
           [[exterior_8; hueco_8]] _ _ _ _ eq_refl
           [exterior_8; hueco_8] hueco_8 2%Q 6%Q).
  - left. reflexivity.
  - right. left. reflexivity.
  - right. right. right. left. reflexivity.
Defined.

Lemma seleccionar_todo_falso {A} (l : list A) (m : list bool) :
  Forall (fun b => b = false) m -> seleccionar l m = [].
Proof.
  intros Hm. revert l. induction Hm as [|b m -> _ IH]; intros [|x l]; simpl; auto.
Qed.

Lemma porcentaje_cotas (a t : Z) :
  0 <= a <= t -> 0 < t ->
  (0 <= inject_Z a / inject_Z t * 100)%Q /\ (inject_Z a / inject_Z t * 100 <= 100)%Q.
Proof.
  intros Ha Ht.
  assert (Ht' : (0 < inject_Z t)%Q)
    by (change (inject_Z 0 < inject_Z t)%Q; rewrite <- Zlt_Qlt; exact Ht).
  assert (H0 : (0 <= inject_Z a / inject_Z t)%Q).
  { apply Qle_shift_div_l; [exact Ht'|]. rewrite Qmult_0_l.
    change (inject_Z 0 <= inject_Z a)%Q. rewrite <- Zle_Qle. lia. }
  assert (H1 : (inject_Z a / inject_Z t <= 1)%Q).
  { apply Qle_shift_div_r; [exact Ht'|]. rewrite Qmult_1_l.
    rewrite <- Zle_Qle. lia. }
  split.
  - apply Qmult_le_0_compat; [exact H0 | discriminate].
  - apply Qle_trans with (1 * 100)%Q.
    + apply Qmult_le_compat_r; [exact H1 | discriminate].
    + discriminate.
Qed.

(** X10: [calcular_porcentaje_pixeles] returns a percentage between 0
    and 100 for every parcel, raster, box and threshold. *)
Theorem X10_porcentaje_entre_0_y_100 sh parcela_polygons capa_img bbox umbral :
  (0 <= calcular_porcentaje_pixeles sh parcela_polygons capa_img bbox umbral)%Q
  /\ (calcular_porcentaje_pixeles sh parcela_polygons capa_img bbox umbral <= 100)%Q.
Proof.
  unfold calcular_porcentaje_pixeles.
  set (arr_masked := seleccionar _ _).
  rewrite np_sum_map_cuenta.
  pose proof (cuenta_cotas (fun v => v <? umbral) arr_masked) as Hc.
  destruct (0 <? Z.of_nat (length arr_masked)) eqn:Et.
  - apply Z.ltb_lt in Et. now apply porcentaje_cotas.
  - split; discriminate.
Qed.

(** X11: [calcular_porcentaje_pixeles] is monotone in the threshold: a
    larger [umbral] never gives a smaller percentage (the script calls it
    with 250, 200 and 150). *)
Theorem X11_porcentaje_monotono_en_umbral
        sh parcela_polygons capa_img bbox umbral1 umbral2 :
  umbral1 <= umbral2 ->
  (calcular_porcentaje_pixeles sh parcela_polygons capa_img bbox umbral1
   <= calcular_porcentaje_pixeles sh parcela_polygons capa_img bbox umbral2)%Q.
Proof.
  intros Hu. unfold calcular_porcentaje_pixeles.
  set (arr_masked := seleccionar _ _).
  rewrite !np_sum_map_cuenta.
  assert (Hc : cuenta (fun v => v <? umbral1) arr_masked
               <= cuenta (fun v => v <? umbral2) arr_masked).
  { apply cuenta_mono. intros v. rewrite !Z.ltb_lt. lia. }
  destruct (0 <? Z.of_nat (length arr_masked)) eqn:Et; [|apply Qle_refl].
  apply Z.ltb_lt in Et.
  apply Qmult_le_compat_r; [|discriminate].
  unfold Qdiv. apply Qmult_le_compat_r.
  - now rewrite <- Zle_Qle.
  - apply Qlt_le_weak, Qinv_lt_0_compat.
    change (inject_Z 0 < inject_Z (Z.of_nat (length arr_masked)))%Q.
    rewrite <- Zlt_Qlt. exact Et.
Qed.

Lemma X11_witness :
  (calcular_porcentaje_pixeles shapely_par_impar [[exterior_15]] capa_gris_5x5
                               caja_15 150
   <= calcular_porcentaje_pixeles shapely_par_impar [[exterior_15]] capa_gris_5x5
                                  caja_15 200)%Q.
Proof.
  apply (X11_porcentaje_monotono_en_umbral
           shapely_par_impar [[exterior_15]] capa_gris_5x5 caja_15 150 200).
  lia.
Defined.

(** X12: when no sample point falls inside the parcel (a parcel outside
    the box, one that slips between the samples, or no polygon at all),
    [calcular_porcentaje_pixeles] returns 0 and does not divide by zero. *)
Theorem X12_sin_muestras_dentro sh parcela_polygons capa_img bbox umbral :
  Forall (fun p => multipolygon_contains
                     sh (polygons_to_shapely parcela_polygons) p = false)
         (muestras15 bbox (columnas capa_img) (filas capa_img)) ->
  calcular_porcentaje_pixeles sh parcela_polygons capa_img bbox umbral = 0%Q.
Proof.
  intros Hf. unfold calcular_porcentaje_pixeles.
  rewrite mascara15_muestras.
  rewrite seleccionar_todo_falso; [reflexivity|].
  apply Forall_map. exact Hf.
Qed.

Lemma X12_witness :
  calcular_porcentaje_pixeles shapely_par_impar [[parcela_diminuta]]
                              capa_gris_5x5 caja_15 250 = 0%Q
  /\ calcular_porcentaje_pixeles shapely_par_impar [] capa_gris_5x5 caja_15 250
     = 0%Q.
Proof.
  split.
  - apply (X12_sin_muestras_dentro shapely_par_impar [[parcela_diminuta]]
                                   capa_gris_5x5 caja_15 250).
    apply (bool_decide_unpack _). vm_compute. exact I.
  - apply (X12_sin_muestras_dentro shapely_par_impar [] capa_gris_5x5 caja_15 250).
    apply (bool_decide_unpack _). vm_compute. exact I.
Defined.

(** ** Paths for matplotlib *)

Lemma ruta_paso_longitudes acc ring :
  length (fst (ruta_paso acc ring))
  = (length (fst acc) + length ring + 1)%nat
  /\ length (snd (ruta_paso acc ring))
     = (length (snd acc) + length ring + 1
        + (if Nat.eqb (length ring) 0 then 1 else 0))%nat.
Proof.
  destruct acc as [vertices codes]. unfold ruta_paso, py_repetir. simpl fst. simpl snd.
  rewrite !length_app. simpl length. rewrite length_app, repeat_length. simpl length.
  destruct (length ring) as [|n] eqn:E; simpl Nat.eqb; cbv iota; split; lia.
Qed.

Lemma fold_ruta_longitudes rings : forall acc,
  length (fst (fold_left ruta_paso rings acc))
  = (length (fst acc) + length (concat rings) + length rings)%nat
  /\ length (snd (fold_left ruta_paso rings acc))
     = (length (snd acc) + length (concat rings) + length rings
        + length (filter (fun r => r = []) rings))%nat.
Proof.
  induction rings as [|ring rings IH]; intros acc; simpl fold_left.
  - simpl. split; lia.
  - destruct (IH (ruta_paso acc ring)) as [Hv Hc].
    destruct (ruta_paso_longitudes acc ring) as [Hv1 Hc1].
    rewrite Hv, Hc, Hv1, Hc1. simpl concat. rewrite length_app.
    rewrite filter_cons. destruct ring as [|v ring].
    + rewrite decide_True by reflexivity. cbn [length Nat.eqb].
      unfold anillo in *. split; lia.
    + rewrite decide_False by discriminate. cbn [length Nat.eqb].
      unfold anillo in *. split; lia.
Qed.

(** X13: for the arrays that [draw_kml_polygons] hands to [Path], every
    ring contributes its vertices plus one closing dummy vertex, and the
    code array is longer than the vertex array by the number of empty
    rings: the two arrays have equal length exactly when no ring is
    empty. *)
Theorem X13_ruta_longitudes (rings : poligono) :
  length (fst (ruta_de_anillos rings))
  = (length (concat rings) + length rings)%nat
  /\ length (snd (ruta_de_anillos rings))
     = (length (fst (ruta_de_anillos rings))
        + length (filter (fun r => r = []) rings))%nat
  /\ (length (snd (ruta_de_anillos rings)) = length (fst (ruta_de_anillos rings))
      <-> Forall (fun r => r <> []) rings).
Proof.
  unfold ruta_de_anillos.
  destruct (fold_ruta_longitudes rings ([], [])) as [Hv Hc].
  unfold poligono, anillo in *. cbn [fst snd length Nat.add] in Hv, Hc.
  set (vacios := filter (fun r : list punto => r = []) rings) in *.
  split; [exact Hv|]. split; [lia|].
  rewrite Hc, Hv. split.
  - intros H.
    assert (Hn : vacios = []) by (destruct vacios; [reflexivity | simpl in H; lia]).
    apply Forall_forall. intros r Hr ->.
    assert (Hin : ([] : list punto) ∈ vacios).
    { apply list_elem_of_filter. split; [reflexivity | exact Hr]. }
    rewrite Hn in Hin. inversion Hin.
  - intros Hf.
    assert (Hn : vacios = []).
    { unfold vacios. clear Hv Hc vacios.
      induction Hf as [|r rings Hr _ IH]; [reflexivity|].
      rewrite filter_cons. now rewrite decide_False. }
    rewrite Hn. simpl. lia.
Qed.

Lemma X13_witness :
  length (snd (ruta_de_anillos [exterior_8; hueco_8]))
  = length (fst (ruta_de_anillos [exterior_8; hueco_8])).
Proof.
  apply (proj2 (proj2 (proj2 (X13_ruta_longitudes [exterior_8; hueco_8])))).
  repeat constructor; discriminate.
Defined.

(** ** The parcel geometry from the cadastre *)

Lemma lista_de_dos_en_dos {A} (P : list A -> Prop) :
  P [] -> (forall x, P [x]) -> (forall x y l, P l -> P (x :: y :: l)) ->
  forall l, P l.
Proof.
  intros H0 H1 H2 l.
  assert (H : P l /\ forall x, P (x :: l)).
  { induction l as [|y l [IH1 IH2]]; [split; auto|].
    split; [apply IH2|]. intros x. apply H2. exact IH1. }
  apply H.
Qed.

Lemma leer_pos_list_par coords_text :
  if Nat.even (length coords_text)
  then exists coords,
      leer_pos_list coords_text = Devuelve coords
      /\ pos_list_de coords = coords_text
      /\ (2 * length coords)%nat = length coords_text
  else leer_pos_list coords_text = Lanza IndexError.
Proof.
  induction coords_text as [| x | lat lon resto IH] using lista_de_dos_en_dos.
  - exists []. repeat split.
  - reflexivity.
  - change (Nat.even (length (lat :: lon :: resto))) with (Nat.even (length resto)).
    simpl leer_pos_list.
    destruct (Nat.even (length resto)).
    + destruct IH as (coords & -> & Hp & Hl).
      exists ((lon, lat) :: coords). split; [reflexivity|]. split.
      * simpl. now rewrite Hp.
      * simpl length. lia.
    + now rewrite IH.
Qed.

(** X14: [obtener_geometria_catastro] returns the points of the [posList]
    exactly when it holds an even number of values: each point is
    (longitude, latitude) from a (latitude, longitude) pair, so listing the
    result latitude-first gives the [posList] back.  With an odd number of
    values the [IndexError] of the last step is caught and the method
    returns [None], dropping the pairs already read. *)
Theorem X14_geometria_catastro coords_text :
  (Nat.even (length coords_text) = true ->
   exists coords,
     obtener_geometria_catastro (Some (Some coords_text)) = Some coords
     /\ pos_list_de coords = coords_text
     /\ (2 * length coords)%nat = length coords_text)
  /\ (Nat.even (length coords_text) = false ->
      obtener_geometria_catastro (Some (Some coords_text)) = None).
Proof.
  pose proof (leer_pos_list_par coords_text) as H.
  unfold obtener_geometria_catastro. split; intros E; rewrite E in H.
  - destruct H as (coords & -> & Hp & Hl). eauto.
  - now rewrite H.
Qed.

Lemma X14_witness :
  (exists coords,
      obtener_geometria_catastro (Some (Some [40; -3; 41; -4]%Q)) = Some coords
      /\ pos_list_de coords = [40; -3; 41; -4]%Q
      /\ (2 * length coords)%nat = 4%nat)
  /\ obtener_geometria_catastro (Some (Some [40; -3; 41]%Q)) = None.
Proof.
  split.
  - apply (proj1 (X14_geometria_catastro [40; -3; 41; -4]%Q)). reflexivity.
  - apply (proj2 (X14_geometria_catastro [40; -3; 41]%Q)). reflexivity.
Defined.

(** The converse direction: any list of points survives the trip through
    a [posList]. *)
Lemma leer_pos_list_de coords :
  leer_pos_list (pos_list_de coords) = Devuelve coords.
Proof.
  induction coords as [|[lon lat] coords IH]; [reflexivity|].
  change (pos_list_de ((lon, lat) :: coords))
    with (lat :: lon :: pos_list_de coords).
  cbn [leer_pos_list]. now rewrite IH.
Qed.

(** ** Reading polygons in the script *)

Lemma para_cada_map {A B} (f : A -> resultado_py B) (g : A -> B) l :
  (forall x, In x l -> f x = Devuelve (g x)) ->
  para_cada f l = Devuelve (map g l).
Proof.
  induction l as [|x l IH]; intros H; [reflexivity|].
  simpl. rewrite (H x (or_introl eq_refl)), IH; [reflexivity|].
  intros y Hy. apply H. now right.
Qed.

Lemma para_cada_lanza {A B} (f : A -> resultado_py B) e l x :
  (forall y e', f y = Lanza e' -> e' = e) ->
  In x l -> f x = Lanza e ->
  para_cada f l = Lanza e.
Proof.
  intros Hsolo. induction l as [|y l IH]; intros Hin Hx; [destruct Hin|].
  simpl. destruct Hin as [-> | Hin].
  - now rewrite Hx.
  - destruct (f y) as [b|e'] eqn:Ey.
    + now rewrite (IH Hin Hx).
    + now rewrite (Hsolo _ _ Ey).
Qed.

Lemma para_cada_solo_lanza {A B} (f : A -> resultado_py B) e :
  (forall y e', f y = Lanza e' -> e' = e) ->
  forall l e', para_cada f l = Lanza e' -> e' = e.
Proof.
  intros Hsolo. induction l as [|y l IH]; intros e'; simpl; [discriminate|].
  destruct (f y) as [b|e1] eqn:Ey.
  - destruct (para_cada f l) as [bs|e2]; [discriminate|].
    intros [= <-]. now apply IH.
  - intros [= <-]. now apply (Hsolo y).
Qed.

Lemma leer_punto15_solo_lanza c e : leer_punto15 c = Lanza e -> e = ValueError.
Proof. destruct c as [|lon [|lat c]]; simpl; congruence. Qed.

Lemma leer_anillo15_completo ring :
  (forall c, In c ring -> (2 <= length c)%nat) ->
  leer_anillo15 ring = Devuelve (leer_coordenadas ring).
Proof.
  unfold leer_anillo15. induction ring as [|c ring IH]; intros H; [reflexivity|].
  destruct c as [|lon [|lat c]];
    try (specialize (H _ (or_introl eq_refl)); simpl in H; lia).
  simpl. rewrite IH; [reflexivity|]. intros c' Hc'. apply H. now right.
Qed.

(** X15: on a document whose entries all have at least two numbers,
    [parse_kml_polygons] returns, for every polygon in document order, its
    outer rings followed by its inner rings, with the same vertices that
    [parsear_kml] would read from each ring; a single entry with fewer than
    two numbers anywhere makes it raise [ValueError] (whereas
    [parsear_kml] skips such an entry). *)
Theorem X15_parse_kml_polygons (doc : list (list poligono_kml)) :
  (entradas_completas doc ->
   parse_kml_polygons doc
   = Devuelve (map (fun polygon =>
                      map leer_coordenadas
                          (outerBoundaryIs polygon ++ innerBoundaryIs polygon))
                   (concat doc)))
  /\ (forall placemark polygon ring c,
         In placemark doc -> In polygon placemark ->
         In ring (outerBoundaryIs polygon ++ innerBoundaryIs polygon) ->
         In c ring -> (length c < 2)%nat ->
         parse_kml_polygons doc = Lanza ValueError
         /\ leer_coordenadas [c] = []).
Proof.
  unfold parse_kml_polygons. split.
  - intros Hok. apply para_cada_map. intros polygon Hp.
    apply in_concat in Hp as (placemark & Hpm & Hpol).
    unfold leer_poligono15. apply para_cada_map. intros ring Hr.
    apply leer_anillo15_completo. intros c Hc.
    now apply (Hok placemark polygon ring c).
  - intros placemark polygon ring c Hpm Hpol Hr Hc Hlen.
    assert (Hpunto : leer_punto15 c = Lanza ValueError)
      by (destruct c as [|lon [|lat c]]; simpl in *; [reflexivity | reflexivity | lia]).
    assert (Hanillo : leer_anillo15 ring = Lanza ValueError)
      by (apply (para_cada_lanza _ _ _ c leer_punto15_solo_lanza Hc Hpunto)).
    assert (Hsolo_anillo : forall r e, leer_anillo15 r = Lanza e -> e = ValueError)
      by (intros r e; apply (para_cada_solo_lanza _ _ leer_punto15_solo_lanza)).
    assert (Hpoligono : leer_poligono15 polygon = Lanza ValueError)
      by (apply (para_cada_lanza _ _ _ ring Hsolo_anillo Hr Hanillo)).
    assert (Hsolo_poligono : forall q e, leer_poligono15 q = Lanza e -> e = ValueError)
      by (intros q e; apply (para_cada_solo_lanza _ _ Hsolo_anillo)).
    split.
    + apply (para_cada_lanza _ _ _ polygon Hsolo_poligono); [|exact Hpoligono].
      apply in_concat. now exists placemark.
    + destruct c as [|lon [|lat c]]; simpl in *; [reflexivity | reflexivity | lia].
Qed.

Lemma X15_witness :
  parse_kml_polygons doc15_bueno = Devuelve [[exterior_8; hueco_8]]
  /\ parse_kml_polygons doc15_malo = Lanza ValueError.
Proof.
  split.
  - apply (proj1 (X15_parse_kml_polygons doc15_bueno)).
    intros placemark polygon ring c Hpm Hpol Hr Hc.
    destruct Hpm as [<- | []]. destruct Hpol as [<- | []].
    simpl in Hr. destruct Hr as [<- | [<- | []]];
      simpl in Hc; repeat (destruct Hc as [<- | Hc]; [simpl; lia|]); destruct Hc.
  - apply (proj2 (X15_parse_kml_polygons doc15_malo)
                 [ PoligonoKml [ [ [0; 0]; [8]; [8; 8]; [0; 8] ]%Q ] [] ]
                 (PoligonoKml [ [ [0; 0]; [8]; [8; 8]; [0; 8] ]%Q ] [])
                 [ [0; 0]; [8]; [8; 8]; [0; 8] ]%Q [8]%Q);
      simpl; auto.
Defined.

(** ** The query point for the cadastre *)

Lemma Qnat_S n : (Qnat (S n) == Qnat n + 1)%Q.
Proof.
  unfold Qnat. rewrite Nat2Z.inj_succ. unfold Z.succ.
  now rewrite inject_Z_plus.
Qed.

Lemma fold_suma_cotas (lo hi : Q) (l : list Q) : forall acc,
  (forall x, In x l -> (lo <= x)%Q /\ (x <= hi)%Q) ->
  (acc + Qnat (length l) * lo <= fold_left Qplus l acc)%Q
  /\ (fold_left Qplus l acc <= acc + Qnat (length l) * hi)%Q.
Proof.
  induction l as [|x l IH]; intros acc H.
  - change (Qnat (length (@nil Q))) with 0%Q. simpl fold_left. split; lra.
  - destruct (H x (or_introl eq_refl)) as [Hlo Hhi].
    destruct (IH (acc + x)%Q (fun y Hy => H y (or_intror Hy))) as [I1 I2].
    simpl fold_left. simpl length. rewrite Qnat_S. split; lra.
Qed.

Lemma media_cotas (lo hi : Q) (l : list Q) :
  l <> [] ->
  (forall x, In x l -> (lo <= x)%Q /\ (x <= hi)%Q) ->
  (lo <= py_sum l / Qnat (length l))%Q /\ (py_sum l / Qnat (length l) <= hi)%Q.
Proof.
  intros Hne H. destruct (fold_suma_cotas lo hi l 0%Q H) as [H1 H2].
  assert (Hn : (0 < Qnat (length l))%Q).
  { destruct l; [contradiction|]. unfold Qnat, Qlt. simpl. lia. }
  unfold py_sum. split.
  - apply Qle_shift_div_l; [exact Hn|]. lra.
  - apply Qle_shift_div_r; [exact Hn|]. lra.
Qed.



(** ** Colours of the summary chart *)

Ltac cadena_Q :=
  repeat match goal with
         | H : Qeq_bool _ _ = true |- _ => apply Qeq_bool_iff in H
         | H : Qeq_bool _ _ = false |- _ => apply Qeq_bool_neq in H
         | H : Qltb _ _ = true |- _ => apply Qltb_lt in H
         | H : Qltb _ _ = false |- _ => apply Qltb_ge in H
         end.

(** X17: the bar colour of the summary chart follows the severity label:
    two percentages that [clasificar_afectacion] gives the same label are
    drawn in the same colour. *)
Theorem X17_color_segun_nivel (p q : Q) :
  fst (clasificar_afectacion p) = fst (clasificar_afectacion q) ->
  color_barra p = color_barra q.
Proof.
  unfold clasificar_afectacion, color_barra.
  destruct (Qeq_bool p 0) eqn:P0, (Qeq_bool q 0) eqn:Q0;
    destruct (Qltb p 5) eqn:P5, (Qltb p 15) eqn:P15, (Qltb p 35) eqn:P35,
             (Qltb p 60) eqn:P60;
    destruct (Qltb q 5) eqn:Q5, (Qltb q 15) eqn:Q15, (Qltb q 35) eqn:Q35,
             (Qltb q 60) eqn:Q60;
    simpl; intros E; try reflexivity; try discriminate E;
    exfalso; clear E; cadena_Q; lra.
Qed.

Lemma X17_witness : color_barra 6 = color_barra (29 # 2).
Proof.
  apply (X17_color_segun_nivel 6 (29 # 2)). reflexivity.
Defined.

(** ** Subplots of the comparison page *)

Lemma enumerate1_lookup {A} (l : list A) i :
  enumerate1 l !! i = (fun x => (S i, x)) <$> (l !! i).
Proof.
  unfold enumerate1.
  assert (H : forall k, combine (seq k (length l)) l !! i
                        = (fun x => ((k + i)%nat, x)) <$> (l !! i)).
  { revert i. induction l as [|x l IH]; intros i k; [destruct i; reflexivity|].
    destruct i as [|i]; simpl.
    - now rewrite Nat.add_0_r.
    - rewrite IH. destruct (l !! i); simpl; [|reflexivity].
      do 2 f_equal. lia. }
  exact (H 1%nat).
Qed.

Lemma enumerate1_indices {A} (l : list A) i x :
  In (i, x) (enumerate1 l) -> (1 <= i <= length l)%nat.
Proof.
  unfold enumerate1. intros H. apply in_combine_l in H.
  apply in_seq in H. lia.
Qed.

Lemma filter_length_todos {A} (P : A -> Prop) `{forall x, Decision (P x)} (l : list A) :
  Forall P l -> length (filter P l) = length l.
Proof.
  induction 1 as [|x l Hx _ IH]; [reflexivity|].
  rewrite filter_cons, decide_True by exact Hx. simpl. now rewrite IH.
Qed.

Lemma filter_length_ninguno {A} (P : A -> Prop) `{forall x, Decision (P x)} (l : list A) :
  Forall (fun x => ~ P x) l -> length (filter P l) = 0%nat.
Proof.
  induction 1 as [|x l Hx _ IH]; [reflexivity|].
  now rewrite filter_cons, decide_False by exact Hx.
Qed.

Lemma filter_length_cota {A} (P : A -> Prop) `{forall x, Decision (P x)} (l : list A) :
  (length (filter P l) + length (filter (fun x => ~ P x) l) = length l)%nat.
Proof.
  induction l as [|x l IH]; [reflexivity|].
  rewrite !filter_cons. destruct (decide (P x)) as [Hx|Hx].
  - rewrite decide_False by tauto. simpl. lia.
  - rewrite decide_True by exact Hx. simpl. lia.
Qed.

Lemma mitad_cotas k : (k <= (k + 1) / 2 * 2 <= k + 1)%nat.
Proof.
  pose proof (Nat.div_mod_eq (k + 1) 2) as E.
  pose proof (Nat.mod_upper_bound (k + 1) 2). lia.
Qed.

(** X18: [_generar_mapa_comparativo] numbers its subplots by the position
    of the layer among all layers but sizes the grid by the number of
    layers that have an image.  When every layer has an image, every
    requested index lies within the [rows * cols] grid; when the last layer
    with an image comes after two or more layers without one, its subplot
    index lies beyond the grid. *)
Theorem X18_subplots_del_mapa :
  (forall items rows cols i,
      Forall (fun it => tiene_imagen (snd it) = true) items ->
      In (rows, cols, i) (subplots_pedidos items) ->
      (1 <= i <= rows * cols)%nat)
  /\ (forall pre nombre e post,
         tiene_imagen e = true ->
         Forall (fun it => tiene_imagen (snd it) <> true) post ->
         (2 <= length (filter (fun it => tiene_imagen (snd it) <> true) pre))%nat ->
         exists rows cols,
           In (rows, cols, S (length pre))
              (subplots_pedidos (pre ++ (nombre, e) :: post))
           /\ (rows * cols < S (length pre))%nat).
Proof.
  split.
  - intros items rows cols i Hall Hin. unfold subplots_pedidos in Hin.
    rewrite (filter_length_todos _ _ Hall) in Hin.
    destruct (Nat.eqb (length items) 0); [destruct Hin|].
    apply in_map_iff in Hin as ([j it] & [= <- <- <-] & Hj).
    apply list_elem_of_In, list_elem_of_filter in Hj as [_ Hj].
    apply list_elem_of_In, enumerate1_indices in Hj.
    pose proof (mitad_cotas (length items)).
    change (fst (Nat.divmod (length items + 1) 1 0 1))
      with ((length items + 1) / 2)%nat.
    lia.
  - intros pre nombre e post He Hpost Hpre.
    set (items := pre ++ (nombre, e) :: post).
    set (P := fun it : string * entrada => tiene_imagen (snd it) = true).
    assert (Hk : length (filter P items)
                 = S (length (filter P pre))).
    { unfold items. rewrite filter_app, filter_cons, length_app.
      rewrite decide_True by exact He. simpl length.
      rewrite (filter_length_ninguno P post Hpost). lia. }
    pose proof (filter_length_cota P pre) as Hcota.
    pose proof (mitad_cotas (length (filter P items))) as Hm.
    exists ((length (filter P items) + 1) / 2)%nat, 2%nat. split.
    + unfold subplots_pedidos. fold P. rewrite Hk. simpl Nat.eqb. cbv iota.
      rewrite <- Hk. apply in_map_iff. exists (S (length pre), (nombre, e)).
      split; [reflexivity|].
      apply list_elem_of_In, list_elem_of_filter. split; [exact He|].
      apply list_elem_of_lookup. exists (length pre).
      rewrite enumerate1_lookup. unfold items.
      rewrite list_lookup_middle by reflexivity. reflexivity.
    + fold P in Hpre. unfold P in *. lia.
Qed.

Lemma X18_witness :
  exists rows cols,
    In (rows, cols, 4%nat) (subplots_pedidos items_ultima_con_imagen)
    /\ (rows * cols < 4)%nat.
Proof.
  apply (proj2 X18_subplots_del_mapa
               [ ("montes_publicos", Entrada None (InformeError "Imagen no disponible"));
                 ("red_natura", Entrada None (InformeError "Imagen no disponible"));
                 ("vias_pecuarias", Entrada None (InformeError "Imagen no disponible")) ]
               "patrimonio_geologico"
               (Entrada (Some 1%nat)
                        (InformeAnalisis
                           (analisis_de (datos (contenido_rgb imagen_2x2))
                                        (datos mascara_diagonal)
                                        (ConfigCapa "" "" [(128, 128, 128)] 50))))
               []).
  - reflexivity.
  - constructor.
  - vm_compute. lia.
Defined.

(** ** The whole run: exported table and frame *)

Lemma analizar_todas_capas_entradas
      polygon wms doc self self0 b width height h :
  match bbox self with
  | None => parsear_kml self doc
  | Some _ => Devuelve self
  end = Devuelve self0 ->
  bbox self0 = Some b ->
  Qeq_bool (maxx b - minx b) 0 = false ->
  Qeq_bool (maxy b - miny b) 0 = false ->
  NoDup (map fst (capas self0)) ->
  (forall config img,
      wms config b width height = Some img ->
      shape (contenido_rgb img) = (height, width)) ->
  exists self' h',
    analizar_todas_capas polygon wms doc self width height h
    = (Devuelve self', h')
    /\ forall n config,
        In (n, config) (capas self0) ->
        entrada_de wms width height self' h' b n config.
Proof.
  intros Hgeo Hb Hx Hy Hnd Hsh.
  assert (Hstage :
            (match bbox self with
             | None => de_resultado (parsear_kml self doc)
             | Some _ => ret self
             end) h = (Devuelve self0, h)).
  { revert Hgeo. destruct (bbox self); unfold de_resultado, ret.
    - now intros [= ->].
    - now intros ->. }
  unfold analizar_todas_capas.
  rewrite (bind_devuelve _ _ _ _ _ Hstage).
  destruct (crear_mascara_poligono_ok polygon self0 width height h b Hb Hx Hy)
    as [cp Hmask].
  rewrite (bind_devuelve _ _ _ _ _ Hmask).
  set (self1 := Analizador _ _ _ _ _).
  set (mk := Ndarray height width (polygon cp width height)).
  destruct (bucle_capas_completo wms width height (map fst (capas self1))
              self1 (h ++ [OBool mk]) b (length h) mk
              Hb eq_refl (lookup_nuevo _ _) Hnd (fun n H => H)
              (fun n c i _ _ Hw => Hsh c i Hw))
    as (self' & h' & ext & Hrun & _ & _ & _ & Hent).
  exists self', h'. split; [exact Hrun|].
  intros n config Hin. apply Hent.
  - apply in_map_iff. now exists (n, config).
  - now apply dict_get_NoDup.
Qed.

(** X19: after a run of [analizar_todas_capas], the [afecciones] table
    that [exportar_json] writes holds a layer exactly when its raster was
    obtained: a layer whose download failed is absent from the exported
    table (its error entry is not exported). *)
Theorem X19_afecciones_exportadas
        polygon wms doc self self0 b width height h :
  match bbox self with
  | None => parsear_kml self doc
  | Some _ => Devuelve self
  end = Devuelve self0 ->
  bbox self0 = Some b ->
  Qeq_bool (maxx b - minx b) 0 = false ->
  Qeq_bool (maxy b - miny b) 0 = false ->
  NoDup (map fst (capas self0)) ->
  (forall config img,
      wms config b width height = Some img ->
      shape (contenido_rgb img) = (height, width)) ->
  exists self' h',
    analizar_todas_capas polygon wms doc self width height h
    = (Devuelve self', h')
    /\ forall n config,
        In (n, config) (capas self0) ->
        (afecciones_exportadas self' !! n = None
         <-> wms config b width height = None).
Proof.
  intros Hgeo Hb Hx Hy Hnd Hsh.
  destruct (analizar_todas_capas_entradas polygon wms doc self self0 b width
              height h Hgeo Hb Hx Hy Hnd Hsh) as (self' & h' & Hrun & Hent).
  exists self', h'. split; [exact Hrun|].
  intros n config Hin. specialize (Hent n config Hin).
  unfold entrada_de in Hent. unfold afecciones_exportadas.
  rewrite lookup_omap.
  destruct (wms config b width height) as [img|].
  - destruct Hent as (r & a & -> & _). simpl. split; discriminate.
  - rewrite Hent. simpl. split; reflexivity.
Qed.

Lemma X19_witness :
  exists self' h',
    analizar_todas_capas relleno_par_impar wms_ejemplo kml_cuadrado
                         analizador_nuevo 2 2 []
    = (Devuelve self', h')
    /\ afecciones_exportadas self' !! "montes_publicos" = None
    /\ afecciones_exportadas self' !! "red_natura" <> None.
Proof.
  destruct (X19_afecciones_exportadas
              relleno_par_impar wms_ejemplo kml_cuadrado analizador_nuevo
              (Analizador (Some (Caja 0 0 4 4))
                          [(0, 0); (4, 0); (4, 4); (0, 4)]%Q
                          None capas_iniciales ∅)
              (Caja 0 0 4 4) 2%nat 2%nat [])
    as (self' & h' & Hrun & Hexp).
  - reflexivity.
  - reflexivity.
  - reflexivity.
  - reflexivity.
  - apply (bool_decide_unpack _). vm_compute. exact I.
  - intros config img. unfold wms_ejemplo.
    destruct (String.eqb _ _); [intros [= <-]; reflexivity | discriminate].
  - exists self', h'. split; [exact Hrun|]. split.
    + apply (proj2 (Hexp "montes_publicos" _ (or_introl eq_refl))). reflexivity.
    + intros Hn.
      apply (proj1 (Hexp "red_natura" _ (or_intror (or_introl eq_refl)))) in Hn.
      discriminate Hn.
Defined.

Lemma extiende_descargar_capa_wms wms self n width height :
  extiende (descargar_capa_wms wms self n width height).
Proof.
  unfold descargar_capa_wms. apply extiende_bind; [auto with marco|].
  intros config. destruct (bbox self); [|auto with marco].
  destruct (wms _ _ _ _); [|auto with marco].
  apply extiende_bind; auto with marco.
Qed.

Lemma extiende_crear_mascara_poligono polygon self width height :
  extiende (crear_mascara_poligono polygon self width height).
Proof.
  unfold crear_mascara_poligono. apply extiende_bind; [auto with marco|].
  intros cp. apply extiende_bind; auto with marco.
Qed.

Lemma extiende_bucle_capas wms width height nombres :
  forall self, extiende (bucle_capas wms width height nombres self).
Proof.
  induction nombres as [|n nombres IH]; intros self; simpl; [auto with marco|].
  apply extiende_bind; [apply extiende_descargar_capa_wms|]. intros imagen.
  apply extiende_bind; [apply extiende_analizar_pixeles|]. intros analisis.
  apply IH.
Qed.

(** X20: a whole run of [analizar_todas_capas], whether it returns or
    raises, leaves every object that existed before it unchanged: images,
    arrays and masks held by the caller are only read. *)
Theorem X20_analizar_todas_capas_no_modifica
        polygon wms doc self width height h r h' :
  analizar_todas_capas polygon wms doc self width height h = (r, h') ->
  forall (l : ref) o, h !! l = Some o -> h' !! l = Some o.
Proof.
  intros Hrun.
  assert (Hext : extiende (analizar_todas_capas polygon wms doc self width height)).
  { unfold analizar_todas_capas. apply extiende_bind.
    - destruct (bbox self); auto with marco.
    - intros self0. apply extiende_bind.
      + apply extiende_crear_mascara_poligono.
      + intros self1. apply extiende_bucle_capas. }
  destruct (Hext _ _ _ Hrun) as [ext ->].
  intros l o Hl. now apply lookup_viejo.
Qed.

Lemma X20_witness :
  exists r h',
    analizar_todas_capas relleno_par_impar wms_ejemplo kml_cuadrado
                         analizador_nuevo 2 2
                         [OImagen imagen_2x2; OBool mascara_diagonal]
    = (Devuelve r, h')
    /\ (length h' = 6)%nat
    /\ forall (l : ref) o,
        [OImagen imagen_2x2; OBool mascara_diagonal] !! l = Some o ->
        h' !! l = Some o.
Proof.
  eexists _, _. split; [vm_compute; reflexivity|]. split; [reflexivity|].
  eapply (X20_analizar_todas_capas_no_modifica
            relleno_par_impar wms_ejemplo kml_cuadrado analizador_nuevo
            2%nat 2%nat [OImagen imagen_2x2; OBool mascara_diagonal]).
  vm_compute. reflexivity.
Defined.

(** ** The two percentages *)

Lemma Qinv_le_pos (u t : Q) : (0 < u)%Q -> (u <= t)%Q -> (/ t <= / u)%Q.
Proof.
  intros Hu Hut.
  assert (Ht : (0 < t)%Q) by (eapply Qlt_le_trans; eauto).
  assert (E : (/ u == 1 / u)%Q) by (field; intros E; rewrite E in Hu; now apply (Qlt_irrefl 0)).
  assert (E' : (/ t == 1 / t)%Q) by (field; intros E'; rewrite E' in Ht; now apply (Qlt_irrefl 0)).
  rewrite E, E'.
  apply Qle_shift_div_r; [exact Ht|].
  assert (E2 : (1 / u * t == t / u)%Q)
    by (field; intros E2; rewrite E2 in Hu; now apply (Qlt_irrefl 0)).
  rewrite E2. apply Qle_shift_div_l; [exact Hu|]. now rewrite Qmult_1_l.
Qed.

Lemma porcentajes_orden num util total :
  0 <= num <= total -> 0 < util <= total ->
  exists pa pt,
    porcentajes num util total = (Fin pa, Fin pt)
    /\ (0 <= pt)%Q /\ (pt <= 100)%Q /\ (pt <= pa)%Q.
Proof.
  intros Hn Hu. unfold porcentajes, np_truediv.
  destruct (util =? 0) eqn:Eu; [apply Z.eqb_eq in Eu; lia|].
  destruct (total =? 0) eqn:Et; [apply Z.eqb_eq in Et; lia|].
  simpl. eexists _, _. split; [reflexivity|].
  destruct (porcentaje_cotas num total Hn ltac:(lia)) as [H0 H100].
  split; [exact H0|]. split; [exact H100|].
  apply Qmult_le_compat_r; [|discriminate].
  unfold Qdiv. rewrite !(Qmult_comm (inject_Z num)).
  apply Qmult_le_compat_r.
  - apply Qinv_le_pos.
    + change (inject_Z 0 < inject_Z util)%Q. rewrite <- Zlt_Qlt. lia.
    + rewrite <- Zle_Qle. lia.
  - change (inject_Z 0 <= inject_Z num)%Q. rewrite <- Zle_Qle. lia.
Qed.

(** X21: when the polygon covers more than three pixels, both percentages
    of the returned dictionary are finite numbers, the percentage over the
    total lies between 0 and 100, and it never exceeds the percentage over
    the usable area. *)
Theorem X21_porcentajes_ordenados self h img i mko nombre a h' :
  h !! img = Some (OImagen i) ->
  mascara_en self h mko ->
  analizar_pixeles self (Some img) nombre h = (Devuelve (InformeAnalisis a), h') ->
  3 < total_pixels_poligono a ->
  exists pa pt,
    porcentaje_afectacion a = Fin pa
    /\ porcentaje_sobre_total a = Fin pt
    /\ (0 <= pt)%Q /\ (pt <= 100)%Q /\ (pt <= pa)%Q.
Proof.
  intros Hi Hmk Hrun Htot.
  destruct (analizar_pixeles_resultado self h img i mko nombre Hi Hmk)
    as [ext H1].
  rewrite H1 in Hrun. injection Hrun as Hr _. revert Hr.
  unfold resultado_de.
  destruct (dict_get _ _) as [config|]; [|discriminate].
  assert (Hgen : forall num util total nb c t,
             0 <= num <= total -> 0 <= nb <= 3 -> util = total - nb ->
             3 < total ->
             exists pa pt,
               porcentaje_afectacion
                 (Analisis total nb util num (fst (porcentajes num util total))
                           (snd (porcentajes num util total)) c t) = Fin pa
               /\ porcentaje_sobre_total
                    (Analisis total nb util num (fst (porcentajes num util total))
                              (snd (porcentajes num util total)) c t) = Fin pt
               /\ (0 <= pt)%Q /\ (pt <= 100)%Q /\ (pt <= pa)%Q).
  { intros num util total nb c t Hn Hb -> Ht.
    destruct (porcentajes_orden num (total - nb) total Hn ltac:(lia))
      as (pa & pt & E & Hp).
    exists pa, pt. simpl. rewrite E. simpl. auto. }
  destruct mko as [mk|].
  - destruct (shape_eqb _ _); [|discriminate].
    intros [= <-]. unfold analisis_de in *. simpl in Htot.
    apply Hgen; [|apply blancos_le_3|reflexivity|exact Htot].
    rewrite afectado_blanqueado. apply cuenta_cotas.
  - intros [= <-]. unfold analisis_sin_mascara in *. simpl in Htot.
    apply Hgen; [|apply blancos_le_3|reflexivity|exact Htot].
    rewrite detectar_color_multiple_datos_spec.
    fold (afectado (colores_posibles config) (tolerancia config)).
    rewrite np_sum_map_cuenta. apply cuenta_cotas.
Qed.

Lemma X21_witness :
  exists a h' pa pt,
    analizar_pixeles analizador_sin_mascara (Some 0%nat) "montes_publicos"
                     [OImagen imagen_2x2]
    = (Devuelve (InformeAnalisis a), h')
    /\ porcentaje_afectacion a = Fin pa
    /\ porcentaje_sobre_total a = Fin pt
    /\ (0 <= pt)%Q /\ (pt <= 100)%Q /\ (pt <= pa)%Q.
Proof.
  destruct (analizar_pixeles_resultado
              analizador_sin_mascara [OImagen imagen_2x2] 0%nat imagen_2x2 None
              "montes_publicos" eq_refl I) as [ext Hrun].
  destruct (X21_porcentajes_ordenados
              analizador_sin_mascara [OImagen imagen_2x2] 0%nat imagen_2x2 None
              "montes_publicos" _ _ eq_refl I Hrun) as (pa & pt & Hp).
  - vm_compute. reflexivity.
  - eexists _, _, pa, pt. split; [exact Hrun | exact Hp].
Defined.

(** ** The vertex conversion against the affine mapping *)

